(** * AlicatMODBUSRTU: a register-map driver for Alicat instruments

    A shallow embedding of [src/AlicatMODBUSRTU.cpp] and the constants of
    [src/AlicatMODBUSRTU.h], followed by the properties of the driver that
    the specification states.

    Conventions of the embedding.
    - C++ [int] is a 32-bit two's complement integer, held in a [Z].  The
      one sum of the driver that can leave the range of [int], the one of
      [offsetRegister], wraps around modulo 2^32 ([int_add]), as it does on
      the 32-bit targets; the other sums are formed after a range check of
      the index (1 to 20, 1 to 5) and stay far inside the range.
    - [uint16_t] is a [Z] reduced modulo 2^16 by [u16] wherever the source
      converts to that type (parameters, casts, array stores).
    - [float] is its IEEE-754 binary32 bit pattern, a [Z] below 2^32. The
      few arithmetic operations on floats go through [SpecFloat].
    - A variable declared without initialiser holds [Vundef] until it is
      assigned.  Copying or computing with [Vundef] gives [Vundef]; using it
      to decide a branch or as a call argument is undefined behaviour and
      ends the run with [Undefined].
    - A method with an output pointer takes the content of the pointee and
      returns its content after the call.
    - The two collaborators are part of the state of the world: the Modbus
      transport (any instance of [ModbusInterface]) and the serial sink (the
      list of the print events so far).  Every transport call is appended to
      the ghost log [calls]. *)

From Stdlib Require Import ZArith List String Bool Lia.
From Stdlib Require Import Floats.SpecFloat.
From stdpp Require Import base option list gmap.

Local Open Scope string_scope.
Local Open Scope Z_scope.
Local Open Scope list_scope.

(** ** Constants of AlicatMODBUSRTU.h *)

Definition DEVICE_TYPE_MASS_FLOW_CONTROLLER      : Z := 0.
Definition DEVICE_TYPE_LIQUID_CONTROLLER         : Z := 1.
Definition DEVICE_TYPE_MASS_FLOW_METER           : Z := 2.
Definition DEVICE_TYPE_PSID_CONTROLLER           : Z := 3.
Definition DEVICE_TYPE_GAUGE_PRESSURE_CONTROLLER : Z := 4.

Definition STATUS_CODE_SUCCESS                          : Z := 0.
Definition STATUS_CODE_INVALID_COMMAND_ID               : Z := 32769.
Definition STATUS_CODE_INVALID_SETTING                  : Z := 32770.
Definition STATUS_CODE_REQUESTED_FEATURE_IS_UNSUPPORTED : Z := 32771.
Definition STATUS_CODE_INVALID_GAS_MIX_INDEX            : Z := 32772.
Definition STATUS_CODE_INVALID_GAS_MIX_CONSTITUENT      : Z := 32773.
Definition STATUS_CODE_INVALID_GAS_MIX_PERCENTAGE       : Z := 32774.

Definition STATUS_BIT_TEMPERATURE_OVERFLOW          : Z := 0x0001.
Definition STATUS_BIT_TEMPERATURE_UNDERFLOW         : Z := 0x0002.
Definition STATUS_BIT_VOLUMETRIC_OVERFLOW           : Z := 0x0004.
Definition STATUS_BIT_VOLUMETRIC_UNDERFLOW          : Z := 0x0008.
Definition STATUS_BIT_MASS_OVERFLOW                 : Z := 0x0010.
Definition STATUS_BIT_MASS_UNDERFLOW                : Z := 0x0020.
Definition STATUS_BIT_PRESSURE_OVERFLOW             : Z := 0x0040.
Definition STATUS_BIT_TOTALIZER_OVERFLOW            : Z := 0x0080.
Definition STATUS_BIT_PID_LOOP_IN_HOLD              : Z := 0x0100.
Definition STATUS_BIT_ADC_ERROR                     : Z := 0x0200.
Definition STATUS_BIT_PID_EXHAUST                   : Z := 0x0400.
Definition STATUS_BIT_OVER_PRESSURE_LIMIT           : Z := 0x0800.
Definition STATUS_BIT_FLOW_OVERFLOW_DURING_TOTALIZE : Z := 0x1000.
Definition STATUS_BIT_MEASUREMENT_ABORTED           : Z := 0x2000.

Definition SPECIAL_COMMAND_CHANGE_GAS_NUMBER         : Z := 1.
Definition SPECIAL_COMMAND_CREATE_CUSTOM_GAS_MIXTURE : Z := 2.
Definition SPECIAL_COMMAND_DELETE_CUSTOM_GAS_MIXTURE : Z := 3.
Definition SPECIAL_COMMAND_TARE                      : Z := 4.
Definition SPECIAL_COMMAND_READ_PID_VALUE            : Z := 14.

Definition REGISTER_COMMAND_ID               : Z := 1000.
Definition REGISTER_COMMAND_ARGUMENT         : Z := 1001.
Definition REGISTER_SETPOINT                 : Z := 1010.
Definition REGISTER_MIXTURE_GAS_1_INDEX      : Z := 1050.
(* The header defines REGISTER_GAS_NUMBER twice (1141, then 1200); the
   later definition is the one in force where the driver uses it. *)
Definition REGISTER_GAS_NUMBER               : Z := 1200.
Definition REGISTER_DEVICE_STATUS            : Z := 1201.
Definition REGISTER_DEVICE_STATISTIC_1_VALUE : Z := 1203.

(** ** Machine values *)

Definition u16 (x : Z) : Z := x mod 65536.

Definition INT_MIN : Z := -2147483648.
Definition INT_MAX : Z := 2147483647.

(** The value of type [int] that a sum leaves behind: the sum itself when
    it lies between [INT_MIN] and [INT_MAX], the sum reduced modulo 2^32
    into that range otherwise. *)
Definition int_wrap (x : Z) : Z := (x + 2147483648) mod 4294967296 - 2147483648.

Definition int_add (a b : Z) : Z := int_wrap (a + b).

(** The content of a C++ variable: indeterminate until assigned. *)
Inductive val (A : Type) : Type :=
| Vundef : val A
| Vdef (a : A) : val A.
Arguments Vundef {A}.
Arguments Vdef {A} a.

Definition val_map {A B : Type} (f : A -> B) (v : val A) : val B :=
  match v with
  | Vundef => Vundef
  | Vdef a => Vdef (f a)
  end.

(** ** Floats

    A [float] travels as its binary32 bit pattern.  The driver computes
    with floats in three places only, all in [double] after the usual
    promotion: two comparisons and one product in [setMixtureGasProperties],
    and one quotient in [getMixtureGasProperties].  [double] is taken to be
    binary64. *)

Definition float_of_bits (b : Z) : spec_float :=
  let s := Z.testbit b 31 in
  let e := Z.land (Z.shiftr b 23) 255 in
  let m := Z.land b 0x7FFFFF in
  if e =? 0 then
    match m with
    | Zpos p => S754_finite s p (-149)
    | _ => S754_zero s
    end
  else if e =? 255 then
    if m =? 0 then S754_infinity s else S754_nan
  else
    match m + 0x800000 with
    | Zpos p => S754_finite s p (e - 150)
    | _ => S754_nan
    end.

Definition bits_of_float (x : spec_float) : Z :=
  let sign (s : bool) := if s then 0x80000000 else 0 in
  match x with
  | S754_zero s => sign s
  | S754_infinity s => sign s + 0x7F800000
  | S754_nan => 0x7FC00000
  | S754_finite s m e =>
      if 0x800000 <=? Zpos m
      then sign s + (e + 150) * 0x800000 + (Zpos m - 0x800000)
      else sign s + Zpos m
  end.

(** Conversion of a floating-point value to the format [prec], [emax]. *)
Definition float_cast (prec emax : Z) (x : spec_float) : spec_float :=
  match x with
  | S754_finite s m e => binary_round prec emax s m e
  | _ => x
  end.

Definition to_double : spec_float -> spec_float := float_cast 53 1024.
Definition to_float : spec_float -> spec_float := float_cast 24 128.

(** The [double] literal of a small integer, and the [float] of an
    unsigned integer. *)
Definition double_of_Z (n : Z) : spec_float := binary_normalize 53 1024 n 0 false.
Definition float_of_Z (n : Z) : spec_float := binary_normalize 24 128 n 0 false.

Definition double_lt (x y : spec_float) : bool := SFltb x y.
Definition double_mul (x y : spec_float) : spec_float := SFmul 53 1024 x y.
Definition double_div (x y : spec_float) : spec_float := SFdiv 53 1024 x y.

(** [round] of math.h: the nearest integer, halves away from zero; there is
    none for a NaN or an infinity. *)
Definition round (x : spec_float) : option Z :=
  match x with
  | S754_zero _ => Some 0
  | S754_finite s m e =>
      let n := if 0 <=? e then Zpos m * 2 ^ e
               else (Zpos m + 2 ^ (- e - 1)) / 2 ^ (- e) in
      Some (if s then - n else n)
  | _ => None
  end.

(** [(uint16_t)] of a rounded [double]: defined when the type holds the
    value. *)
Definition uint16_of_rounded (n : option Z) : val Z :=
  match n with
  | Some z => if (0 <=? z) && (z <? 65536) then Vdef z else Vundef
  | None => Vundef
  end.

(** ** The collaborators *)

(** One call of the driver on its transport, as it reached the bus. *)
Inductive Call : Type :=
| ReadCall (id startRegister : Z) (count : nat)
| WriteCall (id startRegister : Z) (data : list Z).

(** One call on the serial sink ([HardwareSerial::print] and [println]). *)
Inductive SerialEvent : Type :=
| print_str (s : string)
| println_str (s : string)
| print_int (n : Z)
| println_int (n : Z)
| println_bin (n : Z).

(** [ModbusInterface.h] is not part of the sources: the driver only uses
    the two calls below, so the transport is any type with these two
    operations.  A read answers [Some words] (the words it stored in the
    response buffer) or [None] for failure. *)
Class ModbusInterface (T : Type) : Type := {
  readHoldingRegisterValues : T -> Z -> Z -> nat -> option (list Z) * T;
  writeHoldingRegisterValues : T -> Z -> Z -> list Z -> bool * T
}.

(** The flags of the private struct [_status]. *)
Record StatusFlags : Type := {
  TEMPERATURE_OVERFLOW          : val bool;
  TEMPERATURE_UNDERFLOW         : val bool;
  VOLUMETRIC_OVERFLOW           : val bool;
  VOLUMETRIC_UNDERFLOW          : val bool;
  MASS_OVERFLOW                 : val bool;
  MASS_UNDERFLOW                : val bool;
  PRESSURE_OVERFLOW             : val bool;
  TOTALIZER_OVERFLOW            : val bool;
  PID_LOOP_IN_HOLD              : val bool;
  ADC_ERROR                     : val bool;
  PID_EXHAUST                   : val bool;
  OVER_PRESSURE_LIMIT           : val bool;
  FLOW_OVERFLOW_DURING_TOTALIZE : val bool;
  MEASUREMENT_ABORTED           : val bool;
  ANY_ERROR                     : val bool
}.

(** The data members of the class ([_serial] and [_modbus] are references
    to the collaborators and live in [World]). *)
Record AlicatMODBUSRTU : Type := {
  _verbose        : bool;
  _registerOffset : Z;
  _modbusID       : Z;
  _deviceType     : Z;
  _status         : StatusFlags
}.

Record World (T : Type) : Type := {
  self   : AlicatMODBUSRTU;
  modbus : T;
  calls  : list Call;
  serial : list SerialEvent
}.
Arguments self {T} w.
Arguments modbus {T} w.
Arguments calls {T} w.
Arguments serial {T} w.
Arguments Build_World {T} self modbus calls serial.

(** ** The monad of the methods *)

Inductive Result (A : Type) : Type :=
| Done (a : A)
| Undefined.
Arguments Done {A} a.
Arguments Undefined {A}.

Definition M (T A : Type) : Type := World T -> Result A * World T.

Definition ret {T A : Type} (a : A) : M T A := fun w => (Done a, w).

Definition bind {T A B : Type} (m : M T A) (f : A -> M T B) : M T B :=
  fun w =>
    match m w with
    | (Done a, w') => f a w'
    | (Undefined, w') => (Undefined, w')
    end.

Notation "'do' x <- m ; k" := (bind m (fun x => k))
  (at level 10, x name, m at level 100, k at level 200).
Notation "m ;; k" := (bind m (fun _ => k))
  (at level 100, k at level 200, right associativity, only parsing).

Section Driver.

Context {T : Type} `{ModbusInterface T}.

Definition this : M T AlicatMODBUSRTU := fun w => (Done (self w), w).

(** Reading a variable where the program needs its value. *)
Definition use {A : Type} (v : val A) : M T A :=
  fun w =>
    match v with
    | Vdef a => (Done a, w)
    | Vundef => (Undefined, w)
    end.

Definition serial_emit (e : SerialEvent) : M T unit :=
  fun w => (Done tt, Build_World (self w) (modbus w) (calls w) (serial w ++ [e])).

Definition when (b : bool) (m : M T unit) : M T unit :=
  if b then m else ret tt.

Definition modbus_read (id startRegister : Z) (count : nat)
  : M T (option (list Z)) :=
  fun w =>
    let '(r, t) := readHoldingRegisterValues (modbus w) id startRegister count in
    (Done r, Build_World (self w) t
               (calls w ++ [ReadCall id startRegister count]) (serial w)).

Definition modbus_write (id startRegister : Z) (data : list Z) : M T bool :=
  fun w =>
    let '(r, t) := writeHoldingRegisterValues (modbus w) id startRegister data in
    (Done r, Build_World (self w) t
               (calls w ++ [WriteCall id startRegister data]) (serial w)).

(** *** Construction and helper functions *)

(** [_status] is not initialised by the constructor. *)
Definition uninitialised_status : StatusFlags :=
  Build_StatusFlags Vundef Vundef Vundef Vundef Vundef Vundef Vundef Vundef
                    Vundef Vundef Vundef Vundef Vundef Vundef Vundef.

Definition constructor (modbusID deviceType : Z) (verbose : bool)
  : AlicatMODBUSRTU :=
  {| _verbose := verbose;
     _registerOffset := -1;
     _modbusID := modbusID;
     _deviceType := deviceType;
     _status := uninitialised_status |}.

Definition set_self (d : AlicatMODBUSRTU) : M T unit :=
  fun w => (Done tt, Build_World d (modbus w) (calls w) (serial w)).

Definition setRegisterOffset (registerOffset : Z) : M T unit :=
  do d <- this;
  set_self (Build_AlicatMODBUSRTU (_verbose d) registerOffset (_modbusID d)
              (_deviceType d) (_status d)).

Definition setModbusID (modbusID : Z) : M T unit :=
  do d <- this;
  set_self (Build_AlicatMODBUSRTU (_verbose d) (_registerOffset d) modbusID
              (_deviceType d) (_status d)).

Definition offsetRegister (d : AlicatMODBUSRTU) (address : Z) : Z :=
  int_add address (_registerOffset d).

(** *** Device type check *)

Definition deviceIsMassFlow (d : AlicatMODBUSRTU) : bool :=
  (_deviceType d =? DEVICE_TYPE_MASS_FLOW_METER)
  || (_deviceType d =? DEVICE_TYPE_MASS_FLOW_CONTROLLER).

Definition deviceIsController (d : AlicatMODBUSRTU) : bool :=
  (_deviceType d =? DEVICE_TYPE_PSID_CONTROLLER)
  || (_deviceType d =? DEVICE_TYPE_GAUGE_PRESSURE_CONTROLLER)
  || (_deviceType d =? DEVICE_TYPE_MASS_FLOW_CONTROLLER).

Definition deviceIsPressureController (d : AlicatMODBUSRTU) : bool :=
  (_deviceType d =? DEVICE_TYPE_PSID_CONTROLLER)
  || (_deviceType d =? DEVICE_TYPE_GAUGE_PRESSURE_CONTROLLER).

Definition deviceIsLiquid (d : AlicatMODBUSRTU) : bool :=
  _deviceType d =? DEVICE_TYPE_LIQUID_CONTROLLER.

(** The early exits of the form
    [if (_verbose) _serial.println(msg); return;]. *)
Definition report (msg : string) : M T unit :=
  do d <- this;
  when (_verbose d) (serial_emit (println_str msg)).

Definition getDeviceStatisticRegisterAddress
  (statisticIndex : Z) (registerAddress : val Z) : M T (val Z) :=
  if (statisticIndex <? 1) || (statisticIndex >? 20) then
    report "ERROR: function:'getDeviceStatisticRegisterAddress', argument statisticIndex is out of bounds";;
    ret registerAddress
  else
    ret (Vdef (REGISTER_DEVICE_STATISTIC_1_VALUE + 2 * (statisticIndex - 1))).

(** *** Read and write register functions *)

(** [response[i]] after a successful read: a word the transport stored,
    or the indeterminate content the buffer had before. *)
Definition response_at (response : list Z) (i : nat) : val Z :=
  match response !! i with
  | Some r => Vdef (u16 r)
  | None => Vundef
  end.

Definition readSingleRegister (registerAddress : Z) (registerValue : val Z)
  : M T (val Z) :=
  let dataLength := 1%nat in
  do d <- this;
  do r <- modbus_read (_modbusID d) (offsetRegister d registerAddress) dataLength;
  match r with
  | None =>
      serial_emit (print_str "ERROR: Failed to read register: ");;
      serial_emit (println_int registerAddress);;
      ret registerValue
  | Some response => ret (response_at response 0)
  end.

(** The local [union { float asFloat; uint16_t asBytes[2]; }] is its two
    16-bit halves; on the little-endian targets of the Arduino cores
    [asBytes[0]] is bits 15:0 of [asFloat] and [asBytes[1]] bits 31:16.
    [asBytes_of_asFloat] is the array seen after [asFloat] was assigned,
    [asFloat_of_asBytes] the float seen after the array was filled. *)
Definition asBytes_of_asFloat (asFloat : Z) : list Z :=
  [Z.land asFloat 0xFFFF; Z.land (Z.shiftr asFloat 16) 0xFFFF].

Definition asFloat_of_asBytes (asBytes : list (val Z)) : val Z :=
  match asBytes with
  | [Vdef b0; Vdef b1] => Vdef (Z.lor (Z.shiftl b1 16) b0)
  | _ => Vundef
  end.

Definition readRegistersAsFloat (registerAddress : Z) (floatValue : val Z)
  : M T (val Z) :=
  let dataLength := 2%nat in
  let floatValueUnion : list (val Z) := [Vundef; Vundef] in
  do d <- this;
  do r <- modbus_read (_modbusID d) (offsetRegister d registerAddress) dataLength;
  match r with
  | None =>
      serial_emit (print_str "ERROR: Failed to read register: ");;
      serial_emit (println_int registerAddress);;
      ret floatValue
  | Some response =>
      let floatValueUnion := <[1%nat := response_at response 0]> floatValueUnion in
      let floatValueUnion := <[0%nat := response_at response 1]> floatValueUnion in
      ret (asFloat_of_asBytes floatValueUnion)
  end.

Definition writeRegistersAsFloat (registerAddress : Z) (floatValue : Z)
  : M T unit :=
  let dataLength := 2%nat in
  let asBytes := asBytes_of_asFloat floatValue in
  let data := (fun i : nat => asBytes !!! (dataLength - i - 1)%nat) <$> seq 0 dataLength in
  do d <- this;
  modbus_write (_modbusID d) (offsetRegister d registerAddress) data;;
  ret tt.

Definition writeSingleRegister (registerAddress : Z) (registerValue : Z)
  : M T unit :=
  let registerValueArray := [u16 registerValue] in
  do d <- this;
  modbus_write (_modbusID d) (offsetRegister d registerAddress) registerValueArray;;
  ret tt.

(** *** Modbus reading and status registers *)

Definition setSetpoint (setpoint : Z) : M T unit :=
  do d <- this;
  if negb (deviceIsController d) then
    report "ERROR: function, 'setSetpoint' is not used for devices of this type"
  else
    writeRegistersAsFloat REGISTER_SETPOINT setpoint.

Definition getSetpoint (setPoint : val Z) : M T (val Z) :=
  do d <- this;
  if negb (deviceIsController d) then
    report "ERROR: function, 'setSetpoint' is not used for devices of this type";;
    ret setPoint
  else
    let registerAddress : val Z := Vundef in
    do registerAddress <-
      (if deviceIsMassFlow d then
         getDeviceStatisticRegisterAddress 5 registerAddress
       else if deviceIsPressureController d then
         getDeviceStatisticRegisterAddress 2 registerAddress
       else ret registerAddress);
    do a <- use registerAddress;
    readRegistersAsFloat a setPoint.

Definition getPressure (pressure : val Z) : M T (val Z) :=
  let registerAddress : val Z := Vundef in
  do registerAddress <- getDeviceStatisticRegisterAddress 1 registerAddress;
  do a <- use registerAddress;
  readRegistersAsFloat a pressure.

Definition setMixtureGasProperties (mixtureIndex gasIndex gasPercent : Z)
  : M T unit :=
  let gasIndex := u16 gasIndex in
  do d <- this;
  if negb (deviceIsMassFlow d) then
    report "ERROR: function, 'setMixtureGasProperties' is not used for devices of this type"
  else if (mixtureIndex <? 1) || (mixtureIndex >? 5) then
    report "ERROR: function, 'setMixtureGasProperties', mixtureIndex must be between 1 and 5"
  else if (gasIndex <? 0) || (gasIndex >? 210) then
    report "ERROR: function, 'setMixtureGasProperties', gasIndex must be between 0 and 210"
  else if double_lt (to_double (float_of_bits gasPercent)) (double_of_Z 0)
          || double_lt (double_of_Z 100) (to_double (float_of_bits gasPercent)) then
    report "ERROR: function, 'setMixtureGasProperties', gasPercent must be between 0 and 100"
  else
    let gasIndexRegisterAddress := REGISTER_MIXTURE_GAS_1_INDEX + 2 * (mixtureIndex - 1) in
    let gasPercentRegisterAddress := gasIndexRegisterAddress + 1 in
    writeSingleRegister gasIndexRegisterAddress gasIndex;;
    do gasPercentInt <-
      use (uint16_of_rounded
             (round (double_mul (to_double (float_of_bits gasPercent)) (double_of_Z 100))));
    writeSingleRegister gasPercentRegisterAddress gasPercentInt.

Definition getMixtureGasProperties
  (mixtureIndex : Z) (gasIndex : val Z) (gasPercent : val Z)
  : M T (val Z * val Z) :=
  do d <- this;
  if negb (deviceIsMassFlow d) then
    report "ERROR: function, 'getMixtureGasProperties' is not used for devices of this type";;
    ret (gasIndex, gasPercent)
  else if (mixtureIndex <? 1) || (mixtureIndex >? 5) then
    report "ERROR: function, 'getMixtureGasProperties', mixtureIndex must be between 1 and 5";;
    ret (gasIndex, gasPercent)
  else
    let gasIndexRegisterAddress := REGISTER_MIXTURE_GAS_1_INDEX + (mixtureIndex - 1) in
    let gasPercentRegisterAddress := gasIndexRegisterAddress + 1 in
    do gasIndex <- readSingleRegister gasIndexRegisterAddress gasIndex;
    let gasPercentageInt : val Z := Vundef in
    do gasPercentageInt <- readSingleRegister gasPercentRegisterAddress gasPercentageInt;
    let gasPercent :=
      val_map (fun n => bits_of_float
                          (to_float (double_div (to_double (float_of_Z n)) (double_of_Z 100))))
              gasPercentageInt in
    ret (gasIndex, gasPercent).

Definition setGasNumber (gasIndex : Z) : M T unit :=
  let gasIndex := u16 gasIndex in
  do d <- this;
  if negb (deviceIsMassFlow d) then
    report "ERROR: function, 'setGasNumber' is not used for devices of this type"
  else if (gasIndex <? 0) || (gasIndex >? 210) then
    report "ERROR: function, 'setGasNumber', gasIndex must be between 0 and 210"
  else
    writeSingleRegister REGISTER_GAS_NUMBER gasIndex.

Definition getGasNumber (gasIndex : val Z) : M T (val Z) :=
  do d <- this;
  if negb (deviceIsMassFlow d) then
    report "ERROR: function, 'getGasNumber' is not used for devices of this type";;
    ret gasIndex
  else
    readSingleRegister REGISTER_GAS_NUMBER gasIndex.

(** [flag = status & BIT]: the conversion of the masked word to [bool]. *)
Definition status_bit (status : val Z) (bit : Z) : val bool :=
  val_map (fun s => negb (Z.land s bit =? 0)) status.

Definition report_flag (flag : val bool) (msg : string) : M T unit :=
  do b <- use flag;
  when b (serial_emit (println_str msg)).

Definition getStatusFlags : M T unit :=
  let status : val Z := Vundef in
  do status <- readSingleRegister REGISTER_DEVICE_STATUS status;
  do d <- this;
  let st :=
    {| TEMPERATURE_OVERFLOW          := status_bit status STATUS_BIT_TEMPERATURE_OVERFLOW;
       TEMPERATURE_UNDERFLOW         := status_bit status STATUS_BIT_TEMPERATURE_UNDERFLOW;
       VOLUMETRIC_OVERFLOW           := status_bit status STATUS_BIT_VOLUMETRIC_OVERFLOW;
       VOLUMETRIC_UNDERFLOW          := status_bit status STATUS_BIT_VOLUMETRIC_UNDERFLOW;
       MASS_OVERFLOW                 := status_bit status STATUS_BIT_MASS_OVERFLOW;
       MASS_UNDERFLOW                := status_bit status STATUS_BIT_MASS_UNDERFLOW;
       PRESSURE_OVERFLOW             := status_bit status STATUS_BIT_PRESSURE_OVERFLOW;
       TOTALIZER_OVERFLOW            := status_bit status STATUS_BIT_TOTALIZER_OVERFLOW;
       PID_LOOP_IN_HOLD              := status_bit status STATUS_BIT_PID_LOOP_IN_HOLD;
       ADC_ERROR                     := status_bit status STATUS_BIT_ADC_ERROR;
       PID_EXHAUST                   := status_bit status STATUS_BIT_PID_EXHAUST;
       OVER_PRESSURE_LIMIT           := status_bit status STATUS_BIT_OVER_PRESSURE_LIMIT;
       FLOW_OVERFLOW_DURING_TOTALIZE := status_bit status STATUS_BIT_FLOW_OVERFLOW_DURING_TOTALIZE;
       MEASUREMENT_ABORTED           := status_bit status STATUS_BIT_MEASUREMENT_ABORTED;
       ANY_ERROR                     := val_map (fun s => s >? 0) status |} in
  set_self (Build_AlicatMODBUSRTU (_verbose d) (_registerOffset d) (_modbusID d)
              (_deviceType d) st);;
  if _verbose d then
    serial_emit (print_str "STATUS Bits: ");;
    do s <- use status;
    serial_emit (println_bin s);;
    report_flag (TEMPERATURE_OVERFLOW st) "STATUS: TEMPERATURE OVERFLOW bit is set";;
    report_flag (TEMPERATURE_UNDERFLOW st) "STATUS: TEMPERATURE UNDERFLOW bit is set";;
    report_flag (VOLUMETRIC_OVERFLOW st) "STATUS: VOLUMETRIC OVERFLOW bit is set";;
    report_flag (VOLUMETRIC_UNDERFLOW st) "STATUS: VOLUMETRIC UNDERFLOW bit is set";;
    report_flag (MASS_OVERFLOW st) "STATUS: MASS OVERFLOW bit is set";;
    report_flag (MASS_UNDERFLOW st) "STATUS: MASS UNDERFLOW bit is set";;
    report_flag (PRESSURE_OVERFLOW st) "STATUS: PRESSURE OVERFLOW bit is set";;
    report_flag (TOTALIZER_OVERFLOW st) "STATUS: TOTALIZER OVERFLOW bit is set";;
    report_flag (PID_LOOP_IN_HOLD st) "STATUS: PID LOOP IN HOLD bit is set";;
    report_flag (ADC_ERROR st) "STATUS: ADC ERROR bit is set";;
    report_flag (PID_EXHAUST st) "STATUS: PID EXHAUST bit is set";;
    report_flag (OVER_PRESSURE_LIMIT st) "STATUS: OVER PRESSURE LIMIT bit is set";;
    report_flag (FLOW_OVERFLOW_DURING_TOTALIZE st) "STATUS: FLOW OVERFLOW DURING TOTALIZE bit is set";;
    report_flag (MEASUREMENT_ABORTED st) "STATUS: MEASUREMENT ABORTED bit is set"
  else ret tt.

Definition getFlowTemperature (flowTemperature : val Z) : M T (val Z) :=
  do d <- this;
  if negb (deviceIsMassFlow d) && negb (deviceIsLiquid d) then
    report "ERROR: function, 'getFlowTemperature' is not used for devices of this type";;
    ret flowTemperature
  else
    let registerAddress : val Z := Vundef in
    do registerAddress <- getDeviceStatisticRegisterAddress 2 registerAddress;
    do a <- use registerAddress;
    readRegistersAsFloat a flowTemperature.

Definition getVolumetricFlow (volumetricFlow : val Z) : M T (val Z) :=
  do d <- this;
  if negb (deviceIsMassFlow d) && negb (deviceIsLiquid d) then
    report "ERROR: function, 'getVolumetricFlow' is not used for devices of this type";;
    ret volumetricFlow
  else
    let registerAddress : val Z := Vundef in
    do registerAddress <- getDeviceStatisticRegisterAddress 3 registerAddress;
    do a <- use registerAddress;
    readRegistersAsFloat a volumetricFlow.

Definition getMassFlow (massFlow : val Z) : M T (val Z) :=
  do d <- this;
  if negb (deviceIsMassFlow d) then
    report "ERROR: function, 'getMassFlow' is not used for devices of this type";;
    ret massFlow
  else
    let registerAddress : val Z := Vundef in
    do registerAddress <- getDeviceStatisticRegisterAddress 4 registerAddress;
    do a <- use registerAddress;
    readRegistersAsFloat a massFlow.

Definition getMassTotal (massTotal : val Z) : M T (val Z) :=
  do d <- this;
  if negb (deviceIsMassFlow d) then
    report "ERROR: function, 'getMassFlow' is not used for devices of this type";;
    ret massTotal
  else
    let registerAddress : val Z := Vundef in
    do registerAddress <-
      (if deviceIsController d then
         getDeviceStatisticRegisterAddress 6 registerAddress
       else
         getDeviceStatisticRegisterAddress 5 registerAddress);
    do a <- use registerAddress;
    readRegistersAsFloat a massTotal.

(** *** Special commands *)

(** The label the [switch] of [handleSpecialCommandStatusCode] selects. *)
Inductive StatusCase : Type :=
| CaseSuccess
| CaseInvalidCommandId
| CaseInvalidSetting
| CaseRequestedFeatureIsUnsupported
| CaseInvalidGasMixIndex
| CaseInvalidGasMixConstituent
| CaseInvalidGasMixPercentage
| CaseDefault.

Definition switch_status (status : Z) : StatusCase :=
  if status =? STATUS_CODE_SUCCESS then CaseSuccess
  else if status =? STATUS_CODE_INVALID_COMMAND_ID then CaseInvalidCommandId
  else if status =? STATUS_CODE_INVALID_SETTING then CaseInvalidSetting
  else if status =? STATUS_CODE_REQUESTED_FEATURE_IS_UNSUPPORTED
       then CaseRequestedFeatureIsUnsupported
  else if status =? STATUS_CODE_INVALID_GAS_MIX_INDEX then CaseInvalidGasMixIndex
  else if status =? STATUS_CODE_INVALID_GAS_MIX_CONSTITUENT
       then CaseInvalidGasMixConstituent
  else if status =? STATUS_CODE_INVALID_GAS_MIX_PERCENTAGE
       then CaseInvalidGasMixPercentage
  else CaseDefault.

Definition handleSpecialCommandStatusCode (status : Z) : M T bool :=
  let status := u16 status in
  match switch_status status with
  | CaseSuccess => ret true
  | CaseInvalidCommandId =>
      report "ERROR: INVALID COMMAND ID";; ret false
  | CaseInvalidSetting =>
      report "ERROR: INVALID SETTING";; ret false
  | CaseRequestedFeatureIsUnsupported =>
      report "ERROR: REQUESTED FEATURE IS UNSUPPORTED";; ret false
  | CaseInvalidGasMixIndex =>
      report "ERROR: INVALID GAS MIX INDEX (MASS FLOW DEVICE)";; ret false
  | CaseInvalidGasMixConstituent =>
      report "ERROR: INVALID GAS MIX CONSTITUENT (MASS FLOW DEVICE)";; ret false
  | CaseInvalidGasMixPercentage =>
      report "ERROR: INVALID GAS MIX PERCENTAGE (MASS FLOW DEVICE)";; ret false
  | CaseDefault =>
      report "ERROR: UNKNOWN STATUS CODE";; ret false
  end.

Definition sendSpecialCommand (command argument : Z) : M T bool :=
  let data := [u16 command; u16 argument] in
  do d <- this;
  modbus_write (_modbusID d) (offsetRegister d REGISTER_COMMAND_ID) data;;
  let status : val Z := Vundef in
  do status <- readSingleRegister REGISTER_COMMAND_ARGUMENT status;
  do s <- use status;
  handleSpecialCommandStatusCode s.

Definition readPIDValue (coefficientID : Z) (coefficientValue : val Z)
  : M T (val Z) :=
  let coefficientID := u16 coefficientID in
  do d <- this;
  if negb (deviceIsController d) then
    report "ERROR: function, 'readPIDValue' is not used for devices of this type";;
    ret coefficientValue
  else if (coefficientID <? 0) || (coefficientID >? 2) then
    report "ERROR: function:'readPIDValue', argument coefficientID is out of bounds";;
    ret coefficientValue
  else
    sendSpecialCommand SPECIAL_COMMAND_READ_PID_VALUE coefficientID;;
    readSingleRegister REGISTER_COMMAND_ARGUMENT coefficientValue.

Definition changeGasNumber (gasTableIndex : Z) : M T unit :=
  let gasTableIndex := u16 gasTableIndex in
  do d <- this;
  if negb (deviceIsMassFlow d) then
    report "ERROR: function, 'changeGasNumber' is not used for devices of this type"
  else
    sendSpecialCommand SPECIAL_COMMAND_CHANGE_GAS_NUMBER gasTableIndex;;
    ret tt.

Definition createCustomGasMixture (gasMixtureIndex : Z) : M T unit :=
  let gasMixtureIndex := u16 gasMixtureIndex in
  do d <- this;
  if negb (deviceIsMassFlow d) then
    report "ERROR: function, 'createCustomGasMixture' is not used for devices of this type"
  else if negb (gasMixtureIndex =? 0)
          && ((gasMixtureIndex <? 236) || (gasMixtureIndex >? 255)) then
    report "ERROR: function:'createCustomGasMixture', argument gasMixtureIndex is out of bounds"
  else
    sendSpecialCommand SPECIAL_COMMAND_CREATE_CUSTOM_GAS_MIXTURE gasMixtureIndex;;
    ret tt.

Definition deleteCustomGasMixture (gasMixtureIndex : Z) : M T unit :=
  let gasMixtureIndex := u16 gasMixtureIndex in
  do d <- this;
  if negb (deviceIsMassFlow d) then
    report "ERROR: function, 'deleteCustomGasMixture' is not used for devices of this type"
  else
    sendSpecialCommand SPECIAL_COMMAND_DELETE_CUSTOM_GAS_MIXTURE gasMixtureIndex;;
    ret tt.

Definition tare (tareArgument : Z) : M T unit :=
  let tareArgument := u16 tareArgument in
  do d <- this;
  let proceed := true in
  let proceed :=
    if tareArgument =? 0 then
      if negb (deviceIsPressureController d) then false else proceed
    else if tareArgument =? 1 then
      if negb (deviceIsPressureController d) then false else proceed
    else if tareArgument =? 2 then
      if negb (deviceIsMassFlow d) && negb (deviceIsLiquid d) then false else proceed
    else false in
  if negb proceed then
    when (_verbose d)
      (serial_emit (print_str "ERROR: Incorrect Tare Argument ");;
       serial_emit (print_int tareArgument);;
       serial_emit (print_str " for device of type");;
       serial_emit (println_int (_deviceType d)))
  else
    sendSpecialCommand SPECIAL_COMMAND_TARE tareArgument;;
    ret tt.

(** *** The type-restricted operations as one call interface

    A call names the method, carries its arguments and, for every output
    pointer, the content of the pointee at the time of the call. *)
Inductive Operation : Type :=
| SetSetpoint (setpoint : Z)
| GetSetpoint (setPoint : val Z)
| GetFlowTemperature (flowTemperature : val Z)
| GetVolumetricFlow (volumetricFlow : val Z)
| GetMassFlow (massFlow : val Z)
| GetMassTotal (massTotal : val Z)
| GetGasNumber (gasIndex : val Z)
| SetGasNumber (gasIndex : Z)
| SetMixtureGasProperties (mixtureIndex gasIndex gasPercent : Z)
| GetMixtureGasProperties (mixtureIndex : Z) (gasIndex gasPercent : val Z)
| ChangeGasNumber (gasTableIndex : Z)
| CreateCustomGasMixture (gasMixtureIndex : Z)
| DeleteCustomGasMixture (gasMixtureIndex : Z)
| ReadPIDValue (coefficientID : Z) (coefficientValue : val Z)
| Tare (tareArgument : Z).

(** The contents of the output locations of a call, before it runs. *)
Definition outputs (op : Operation) : list (val Z) :=
  match op with
  | GetSetpoint v | GetFlowTemperature v | GetVolumetricFlow v | GetMassFlow v
  | GetMassTotal v | GetGasNumber v | ReadPIDValue _ v => [v]
  | GetMixtureGasProperties _ gasIndex gasPercent => [gasIndex; gasPercent]
  | _ => []
  end.

Definition no_output (m : M T unit) : M T (list (val Z)) :=
  m;; ret [].

Definition one_output (m : M T (val Z)) : M T (list (val Z)) :=
  do v <- m; ret [v].

(** Runs a call; the result is the contents of its output locations after
    the call. *)
Definition invoke (op : Operation) : M T (list (val Z)) :=
  match op with
  | SetSetpoint setpoint => no_output (setSetpoint setpoint)
  | GetSetpoint v => one_output (getSetpoint v)
  | GetFlowTemperature v => one_output (getFlowTemperature v)
  | GetVolumetricFlow v => one_output (getVolumetricFlow v)
  | GetMassFlow v => one_output (getMassFlow v)
  | GetMassTotal v => one_output (getMassTotal v)
  | GetGasNumber v => one_output (getGasNumber v)
  | SetGasNumber gasIndex => no_output (setGasNumber gasIndex)
  | SetMixtureGasProperties mixtureIndex gasIndex gasPercent =>
      no_output (setMixtureGasProperties mixtureIndex gasIndex gasPercent)
  | GetMixtureGasProperties mixtureIndex gasIndex gasPercent =>
      do r <- getMixtureGasProperties mixtureIndex gasIndex gasPercent;
      ret [fst r; snd r]
  | ChangeGasNumber i => no_output (changeGasNumber i)
  | CreateCustomGasMixture i => no_output (createCustomGasMixture i)
  | DeleteCustomGasMixture i => no_output (deleteCustomGasMixture i)
  | ReadPIDValue coefficientID v => one_output (readPIDValue coefficientID v)
  | Tare tareArgument => no_output (tare tareArgument)
  end.

(** *** Vocabulary of the properties *)

(** A computation is [quiet] for an object [d] when, run on [d], it returns
    without touching the bus or the object: no transport call, the
    transport and the data members as they were, possibly some lines on the
    serial sink. *)
Definition quiet {A : Type} (d : AlicatMODBUSRTU) (m : M T A) (a : A) : Prop :=
  forall w, self w = d ->
    exists out,
      m w = (Done a, Build_World d (modbus w) (calls w) (serial w ++ out)).

End Driver.

Arguments quiet T {A} d m a.

(** ** Two transports to run the driver on *)

Fixpoint store_words (startRegister : Z) (data : list Z) (regs : gmap Z Z)
  : gmap Z Z :=
  match data with
  | [] => regs
  | x :: data' => store_words (startRegister + 1) data' (<[startRegister := x]> regs)
  end.

(** A bank of holding registers: a read answers with the words last
    written to the registers (0 for a register never written). *)
#[export] Instance register_bank : ModbusInterface (gmap Z Z) := {|
  readHoldingRegisterValues regs id startRegister count :=
    (Some ((fun k : nat => default 0 (regs !! (startRegister + Z.of_nat k)))
             <$> seq 0 count), regs);
  writeHoldingRegisterValues regs id startRegister data :=
    (true, store_words startRegister data regs)
|}.

(** A bus that plays back a script: every read consumes the next reply
    ([None] is a failed read) and fails once the script is over; every
    write is acknowledged. *)
#[export] Instance scripted_bus : ModbusInterface (list (option (list Z))) := {|
  readHoldingRegisterValues script id startRegister count :=
    match script with
    | [] => (None, [])
    | reply :: script' => (reply, script')
    end;
  writeHoldingRegisterValues script id startRegister data := (true, script)
|}.

Definition power_on {T : Type} (d : AlicatMODBUSRTU) (bus : T) : World T :=
  Build_World d bus [] [].

(** ** The capability table of the specification

    The device types and the capability predicates as the specification
    words them, to compare the gates of the methods with. *)
Inductive DeviceType : Type :=
| MassFlowController
| LiquidController
| MassFlowMeter
| PSIDController
| GaugePressureController.

Definition device_type_tag (t : DeviceType) : Z :=
  match t with
  | MassFlowController => DEVICE_TYPE_MASS_FLOW_CONTROLLER
  | LiquidController => DEVICE_TYPE_LIQUID_CONTROLLER
  | MassFlowMeter => DEVICE_TYPE_MASS_FLOW_METER
  | PSIDController => DEVICE_TYPE_PSID_CONTROLLER
  | GaugePressureController => DEVICE_TYPE_GAUGE_PRESSURE_CONTROLLER
  end.

Definition isMassFlow (t : DeviceType) : bool :=
  match t with
  | MassFlowMeter | MassFlowController => true
  | _ => false
  end.

Definition isController (t : DeviceType) : bool :=
  match t with
  | PSIDController | GaugePressureController | MassFlowController => true
  | _ => false
  end.

Definition isPressureController (t : DeviceType) : bool :=
  match t with
  | PSIDController | GaugePressureController => true
  | _ => false
  end.

Definition isLiquid (t : DeviceType) : bool :=
  match t with
  | LiquidController => true
  | _ => false
  end.

(** The capability an operation requires of the device type; for [tare]
    it depends on the argument as the method receives it. *)
Definition supported (t : DeviceType) (op : Operation) : bool :=
  match op with
  | SetSetpoint _ | GetSetpoint _ | ReadPIDValue _ _ => isController t
  | GetFlowTemperature _ | GetVolumetricFlow _ => isMassFlow t || isLiquid t
  | GetMassFlow _ | GetMassTotal _ | GetGasNumber _ | SetGasNumber _
  | SetMixtureGasProperties _ _ _ | GetMixtureGasProperties _ _ _
  | ChangeGasNumber _ | CreateCustomGasMixture _ | DeleteCustomGasMixture _ =>
      isMassFlow t
  | Tare tareArgument =>
      if (u16 tareArgument =? 0) || (u16 tareArgument =? 1) then isPressureController t
      else if u16 tareArgument =? 2 then isMassFlow t || isLiquid t
      else false
  end.

(** The status codes [handleSpecialCommandStatusCode] has a case for. *)
Definition known_status_codes : list Z :=
  [STATUS_CODE_SUCCESS; STATUS_CODE_INVALID_COMMAND_ID; STATUS_CODE_INVALID_SETTING;
   STATUS_CODE_REQUESTED_FEATURE_IS_UNSUPPORTED; STATUS_CODE_INVALID_GAS_MIX_INDEX;
   STATUS_CODE_INVALID_GAS_MIX_CONSTITUENT; STATUS_CODE_INVALID_GAS_MIX_PERCENTAGE].

(** The flags [getStatusFlags] derives from a status word. *)
Definition decoded_status (status : Z) : StatusFlags :=
  {| TEMPERATURE_OVERFLOW          := Vdef (negb (Z.land status 0x0001 =? 0));
     TEMPERATURE_UNDERFLOW         := Vdef (negb (Z.land status 0x0002 =? 0));
     VOLUMETRIC_OVERFLOW           := Vdef (negb (Z.land status 0x0004 =? 0));
     VOLUMETRIC_UNDERFLOW          := Vdef (negb (Z.land status 0x0008 =? 0));
     MASS_OVERFLOW                 := Vdef (negb (Z.land status 0x0010 =? 0));
     MASS_UNDERFLOW                := Vdef (negb (Z.land status 0x0020 =? 0));
     PRESSURE_OVERFLOW             := Vdef (negb (Z.land status 0x0040 =? 0));
     TOTALIZER_OVERFLOW            := Vdef (negb (Z.land status 0x0080 =? 0));
     PID_LOOP_IN_HOLD              := Vdef (negb (Z.land status 0x0100 =? 0));
     ADC_ERROR                     := Vdef (negb (Z.land status 0x0200 =? 0));
     PID_EXHAUST                   := Vdef (negb (Z.land status 0x0400 =? 0));
     OVER_PRESSURE_LIMIT           := Vdef (negb (Z.land status 0x0800 =? 0));
     FLOW_OVERFLOW_DURING_TOTALIZE := Vdef (negb (Z.land status 0x1000 =? 0));
     MEASUREMENT_ABORTED           := Vdef (negb (Z.land status 0x2000 =? 0));
     ANY_ERROR                     := Vdef (negb (status =? 0)) |}.

(** ** Devices to run the driver on *)

(** The binary32 patterns of 50.0, 12.5 and 0.47. *)
Definition float_50 : Z := 0x42480000.
Definition float_12_5 : Z := 0x41480000.
Definition float_0_47 : Z := 0x3EF0A3D7.

(** A mass-flow controller on a bank of registers, all of them 0. *)
Definition mass_flow_controller_on_bank : World (gmap Z Z) :=
  power_on (constructor 1 DEVICE_TYPE_MASS_FLOW_CONTROLLER false) ∅.

(** A PSID controller on the same bank. *)
Definition psid_controller_on_bank : World (gmap Z Z) :=
  power_on (constructor 1 DEVICE_TYPE_PSID_CONTROLLER true) ∅.

(** A mass-flow meter on a bus where every read fails. *)
Definition mass_flow_meter_on_dead_bus : World (list (option (list Z))) :=
  power_on (constructor 1 DEVICE_TYPE_MASS_FLOW_METER false) [].

(** A device whose status register reads 0x0041. *)
Definition meter_with_status_0x41 : World (list (option (list Z))) :=
  power_on (constructor 1 DEVICE_TYPE_MASS_FLOW_METER true) [Some [0x0041]].

(** A controller that answers a special command with the status code 0. *)
Definition controller_accepting_command : World (list (option (list Z))) :=
  power_on (constructor 1 DEVICE_TYPE_PSID_CONTROLLER false) [Some [STATUS_CODE_SUCCESS]].

(** A controller that answers a special command with the status code
    32770 (invalid setting) and leaves it in the argument register. *)
Definition controller_rejecting_command : World (list (option (list Z))) :=
  power_on (constructor 1 DEVICE_TYPE_PSID_CONTROLLER false)
    [Some [STATUS_CODE_INVALID_SETTING]; Some [STATUS_CODE_INVALID_SETTING]].

(** ** Vocabulary of the further properties *)

Definition call_id (c : Call) : Z :=
  match c with
  | ReadCall id _ _ | WriteCall id _ _ => id
  end.

Definition is_read (c : Call) : bool :=
  match c with
  | ReadCall _ _ _ => true
  | WriteCall _ _ _ => false
  end.

(** The kind of transport call an operation is expected to stay with: a
    getter only reads, a setter only writes, a special command does both. *)
Definition call_kind_of (op : Operation) (c : Call) : bool :=
  match op with
  | GetSetpoint _ | GetFlowTemperature _ | GetVolumetricFlow _ | GetMassFlow _
  | GetMassTotal _ | GetGasNumber _ | GetMixtureGasProperties _ _ _ => is_read c
  | SetSetpoint _ | SetGasNumber _ | SetMixtureGasProperties _ _ _ => negb (is_read c)
  | ChangeGasNumber _ | CreateCustomGasMixture _ | DeleteCustomGasMixture _
  | ReadPIDValue _ _ | Tare _ => true
  end.

(** The getters that are one read of the transport. *)
Definition single_read_getter (op : Operation) : bool :=
  match op with
  | GetSetpoint _ | GetFlowTemperature _ | GetVolumetricFlow _
  | GetMassFlow _ | GetMassTotal _ | GetGasNumber _ => true
  | _ => false
  end.

(** The table of the device statistics behind the float getters. *)
Definition statistic_of (t : DeviceType) (op : Operation) : option Z :=
  match op with
  | GetSetpoint _ => Some (if isMassFlow t then 5 else 2)
  | GetFlowTemperature _ => Some 2
  | GetVolumetricFlow _ => Some 3
  | GetMassFlow _ => Some 4
  | GetMassTotal _ => Some (if isController t then 6 else 5)
  | _ => None
  end.

(** The command and the argument of the operations that are one special
    command and nothing else. *)
Definition command_of (op : Operation) : option (Z * Z) :=
  match op with
  | ChangeGasNumber i => Some (SPECIAL_COMMAND_CHANGE_GAS_NUMBER, u16 i)
  | CreateCustomGasMixture i => Some (SPECIAL_COMMAND_CREATE_CUSTOM_GAS_MIXTURE, u16 i)
  | DeleteCustomGasMixture i => Some (SPECIAL_COMMAND_DELETE_CUSTOM_GAS_MIXTURE, u16 i)
  | Tare a => Some (SPECIAL_COMMAND_TARE, u16 a)
  | _ => None
  end.

(** The percentages that pass the two comparisons of
    [setMixtureGasProperties]. *)
Definition percent_accepted (gasPercent : Z) : bool :=
  negb (double_lt (to_double (float_of_bits gasPercent)) (double_of_Z 0)
        || double_lt (double_of_Z 100) (to_double (float_of_bits gasPercent))).

(** The documented domain of the arguments, for the operations that have
    one. *)
Definition argument_in_domain (op : Operation) : bool :=
  match op with
  | SetGasNumber g => u16 g <=? 210
  | SetMixtureGasProperties m g p =>
      (1 <=? m) && (m <=? 5) && (u16 g <=? 210) && percent_accepted p
  | GetMixtureGasProperties m _ _ => (1 <=? m) && (m <=? 5)
  | CreateCustomGasMixture i => (u16 i =? 0) || ((236 <=? u16 i) && (u16 i <=? 255))
  | ReadPIDValue c _ => u16 c <=? 2
  | _ => true
  end.

(** The register word [setMixtureGasProperties] writes for a percentage,
    and the percentage [getMixtureGasProperties] returns for a word. *)
Definition percent_word (gasPercent : Z) : val Z :=
  uint16_of_rounded
    (round (double_mul (to_double (float_of_bits gasPercent)) (double_of_Z 100))).

Definition word_percent (word : Z) : Z :=
  bits_of_float (to_float (double_div (to_double (float_of_Z word)) (double_of_Z 100))).

Section Confinement.

Context {T : Type} `{ModbusInterface T}.

(** [confined d P m]: run on the object [d], [m] leaves the data members
    as they are and extends the log with calls that all satisfy [P]. *)
Definition confined {A : Type} (d : AlicatMODBUSRTU) (P : Call -> Prop) (m : M T A)
  : Prop :=
  forall w, self w = d ->
    self (snd (m w)) = d
    /\ exists new, calls (snd (m w)) = calls w ++ new /\ Forall P new.

End Confinement.

Arguments confined T {A} d P m.

(** A mass-flow meter whose next two reads answer 47 and 5000 (a gas index
    and a percentage word), and one with a silent script. *)
Definition meter_with_mixture_words : World (list (option (list Z))) :=
  power_on (constructor 1 DEVICE_TYPE_MASS_FLOW_METER false) [Some [47]; Some [5000]].

(** A device built with the device type 7, which is no defined tag. *)
Definition untyped_device_on_bank : World (gmap Z Z) :=
  power_on (constructor 1 7 true) ∅.

(** A pressure controller whose next read answers the two halves of 50.0. *)
Definition controller_with_float_words : World (list (option (list Z))) :=
  power_on (constructor 1 DEVICE_TYPE_GAUGE_PRESSURE_CONTROLLER false)
    [Some [0x4248; 0x0000]].

(** A quiet NaN of binary32. *)
Definition float_nan : Z := 0x7FC00000.

(** The percentage words that survive being read and written back. *)
Definition percent_word_stable (n : Z) : bool :=
  percent_accepted (word_percent n)
  && match percent_word (word_percent n) with
     | Vdef m => m =? n
     | Vundef => false
     end.

(** * Properties *)

Section Properties.

Context {T : Type} `{ModbusInterface T}.

(** ** Stepping through the monad *)

Lemma bind_Done {A B : Type} (m : M T A) (f : A -> M T B) (w w' : World T) (a : A) :
  m w = (Done a, w') -> bind m f w = f a w'.
Proof. intros E. unfold bind. rewrite E. reflexivity. Qed.

Lemma bind_Undefined {A B : Type} (m : M T A) (f : A -> M T B) (w w' : World T) :
  m w = (Undefined, w') -> bind m f w = (Undefined, w').
Proof. intros E. unfold bind. rewrite E. reflexivity. Qed.

Lemma world_eta (w : World T) :
  Build_World (self w) (modbus w) (calls w) (serial w) = w.
Proof. destruct w; reflexivity. Qed.

Lemma quiet_ret {A : Type} (d : AlicatMODBUSRTU) (a : A) : quiet T d (ret a) a.
Proof.
  intros w <-. exists []. rewrite app_nil_r, world_eta. reflexivity.
Qed.

Lemma quiet_this (d : AlicatMODBUSRTU) : quiet T d this d.
Proof.
  intros w <-. exists []. rewrite app_nil_r, world_eta. reflexivity.
Qed.

Lemma quiet_serial_emit (d : AlicatMODBUSRTU) (e : SerialEvent) :
  quiet T d (serial_emit e) tt.
Proof. intros w <-. exists [e]. reflexivity. Qed.

Lemma quiet_bind {A B : Type} (d : AlicatMODBUSRTU)
  (m : M T A) (f : A -> M T B) (a : A) (b : B) :
  quiet T d m a -> quiet T d (f a) b -> quiet T d (bind m f) b.
Proof.
  intros Hm Hf w Hw. destruct (Hm w Hw) as [o1 E1].
  destruct (Hf (Build_World d (modbus w) (calls w) (serial w ++ o1)) eq_refl)
    as [o2 E2].
  exists (o1 ++ o2). rewrite (bind_Done _ _ _ _ _ E1), E2. simpl.
  rewrite app_assoc. reflexivity.
Qed.

Lemma quiet_when (d : AlicatMODBUSRTU) (b : bool) (m : M T unit) :
  quiet T d m tt -> quiet T d (when b m) tt.
Proof. intros Hm. destruct b; simpl; [exact Hm | apply quiet_ret]. Qed.

Lemma quiet_report (d : AlicatMODBUSRTU) (msg : string) : quiet T d (report msg) tt.
Proof.
  unfold report. eapply quiet_bind; [apply quiet_this |].
  apply quiet_when, quiet_serial_emit.
Qed.

Lemma quiet_use {A : Type} (d : AlicatMODBUSRTU) (a : A) : quiet T d (use (Vdef a)) a.
Proof. apply quiet_ret. Qed.

Lemma quiet_calls {A : Type} (m : M T A) (a : A) (w : World T) :
  quiet T (self w) m a ->
  fst (m w) = Done a /\ calls (snd (m w)) = calls w
  /\ modbus (snd (m w)) = modbus w /\ self (snd (m w)) = self w.
Proof. intros Hm. destruct (Hm w eq_refl) as [out ->]. simpl. auto. Qed.

Create HintDb quiet.
#[local] Hint Resolve quiet_ret quiet_this quiet_serial_emit quiet_when
  quiet_report quiet_use : quiet.
#[local] Hint Extern 2 (quiet _ _ (bind _ _) _) => eapply quiet_bind : quiet.

(** ** The statistic registers *)

Lemma statistic_in_range (statisticIndex : Z) (registerAddress : val Z) (w : World T) :
  1 <= statisticIndex <= 20 ->
  getDeviceStatisticRegisterAddress statisticIndex registerAddress w
  = (Done (Vdef (REGISTER_DEVICE_STATISTIC_1_VALUE + 2 * (statisticIndex - 1))), w).
Proof.
  intros Hi. unfold getDeviceStatisticRegisterAddress.
  replace (statisticIndex <? 1) with false by lia.
  replace (statisticIndex >? 20) with false by lia.
  reflexivity.
Qed.

Lemma statistic_out_of_range
  (d : AlicatMODBUSRTU) (statisticIndex : Z) (registerAddress : val Z) :
  ~ 1 <= statisticIndex <= 20 ->
  quiet T d (getDeviceStatisticRegisterAddress statisticIndex registerAddress)
        registerAddress.
Proof.
  intros Hi. unfold getDeviceStatisticRegisterAddress.
  replace ((statisticIndex <? 1) || (statisticIndex >? 20)) with true
    by (symmetry; apply orb_true_iff; lia).
  eauto with quiet.
Qed.

(** C7. [getDeviceStatisticRegisterAddress] resolves exactly the indices 1
    to 20: for such an index the output receives
    [REGISTER_DEVICE_STATISTIC_1_VALUE + 2 * (statisticIndex - 1)] (1203 for
    index 1, 1203 + 38 for index 20) and nothing else changes; for any other
    index the output keeps its content, the transport is not called, and
    the error line goes to the serial sink (when [_verbose] is set, as for
    every diagnostic of the driver). *)
Theorem statistic_register_address
  (statisticIndex : Z) (registerAddress : val Z) (w : World T) :
  let r := getDeviceStatisticRegisterAddress statisticIndex registerAddress w in
  (1 <= statisticIndex <= 20 ->
     r = (Done (Vdef (REGISTER_DEVICE_STATISTIC_1_VALUE + 2 * (statisticIndex - 1))), w))
  /\ (~ 1 <= statisticIndex <= 20 ->
     fst r = Done registerAddress
     /\ calls (snd r) = calls w /\ modbus (snd r) = modbus w
     /\ self (snd r) = self w
     /\ serial (snd r)
        = serial w ++
          (if _verbose (self w)
           then [println_str "ERROR: function:'getDeviceStatisticRegisterAddress', argument statisticIndex is out of bounds"]
           else []))
  /\ getDeviceStatisticRegisterAddress 1 registerAddress w = (Done (Vdef 1203), w)
  /\ getDeviceStatisticRegisterAddress 20 registerAddress w = (Done (Vdef (1203 + 38)), w).
Proof.
  cbv zeta. split; [| split; [| split]].
  - apply statistic_in_range.
  - intros Hi. unfold getDeviceStatisticRegisterAddress.
    replace ((statisticIndex <? 1) || (statisticIndex >? 20)) with true
      by (symmetry; apply orb_true_iff; lia).
    unfold report, bind, this, when, ret, serial_emit.
    destruct (_verbose (self w)); simpl; rewrite ?app_nil_r; auto.
  - reflexivity.
  - reflexivity.
Qed.

(** ** The primitives and the calls they issue *)

Ltac step_bus :=
  match goal with
  | |- context [readHoldingRegisterValues ?t ?i ?a ?n] =>
      let r := fresh "reply" in let t' := fresh "bus" in
      destruct (readHoldingRegisterValues t i a n) as [[r|] t'] eqn:?
  | |- context [writeHoldingRegisterValues ?t ?i ?a ?l] =>
      let r := fresh "ack" in let t' := fresh "bus" in
      destruct (writeHoldingRegisterValues t i a l) as [r t'] eqn:?
  end.

Ltac unfold_monad :=
  unfold report, when, bind, ret, this, use, set_self, serial_emit,
    modbus_read, modbus_write in *.

Lemma readSingleRegister_run (registerAddress : Z) (registerValue : val Z) (w : World T) :
  readSingleRegister registerAddress registerValue w
  = let d := self w in
    let '(r, bus) := readHoldingRegisterValues (modbus w) (_modbusID d)
                       (offsetRegister d registerAddress) 1 in
    let log := calls w ++ [ReadCall (_modbusID d) (offsetRegister d registerAddress) 1] in
    match r with
    | Some response =>
        (Done (response_at response 0), Build_World d bus log (serial w))
    | None =>
        (Done registerValue,
         Build_World d bus log
           (serial w ++ [print_str "ERROR: Failed to read register: ";
                         println_int registerAddress]))
    end.
Proof.
  unfold readSingleRegister. unfold_monad. cbv zeta.
  step_bus; simpl; rewrite <- ?app_assoc; reflexivity.
Qed.

Lemma readRegistersAsFloat_run (registerAddress : Z) (floatValue : val Z) (w : World T) :
  readRegistersAsFloat registerAddress floatValue w
  = let d := self w in
    let '(r, bus) := readHoldingRegisterValues (modbus w) (_modbusID d)
                       (offsetRegister d registerAddress) 2 in
    let log := calls w ++ [ReadCall (_modbusID d) (offsetRegister d registerAddress) 2] in
    match r with
    | Some response =>
        (Done (asFloat_of_asBytes [response_at response 1; response_at response 0]),
         Build_World d bus log (serial w))
    | None =>
        (Done floatValue,
         Build_World d bus log
           (serial w ++ [print_str "ERROR: Failed to read register: ";
                         println_int registerAddress]))
    end.
Proof.
  unfold readRegistersAsFloat. unfold_monad. cbv zeta.
  step_bus; simpl; rewrite <- ?app_assoc; reflexivity.
Qed.

Lemma writeRegistersAsFloat_run (registerAddress floatValue : Z) (w : World T) :
  writeRegistersAsFloat registerAddress floatValue w
  = let d := self w in
    let data := [Z.land (Z.shiftr floatValue 16) 0xFFFF; Z.land floatValue 0xFFFF] in
    let '(_, bus) := writeHoldingRegisterValues (modbus w) (_modbusID d)
                       (offsetRegister d registerAddress) data in
    (Done tt,
     Build_World d bus
       (calls w ++ [WriteCall (_modbusID d) (offsetRegister d registerAddress) data])
       (serial w)).
Proof.
  unfold writeRegistersAsFloat. unfold_monad. cbv zeta. simpl.
  step_bus; reflexivity.
Qed.

Lemma writeSingleRegister_run (registerAddress registerValue : Z) (w : World T) :
  writeSingleRegister registerAddress registerValue w
  = let d := self w in
    let '(_, bus) := writeHoldingRegisterValues (modbus w) (_modbusID d)
                       (offsetRegister d registerAddress) [u16 registerValue] in
    (Done tt,
     Build_World d bus
       (calls w ++ [WriteCall (_modbusID d) (offsetRegister d registerAddress)
                      [u16 registerValue]])
       (serial w)).
Proof.
  unfold writeSingleRegister. unfold_monad. cbv zeta.
  step_bus; reflexivity.
Qed.

(** [handleSpecialCommandStatusCode] only classifies and reports. *)
Lemma handleSpecialCommandStatusCode_quiet (d : AlicatMODBUSRTU) (status : Z) :
  quiet T d (handleSpecialCommandStatusCode status)
        (match switch_status (u16 status) with CaseSuccess => true | _ => false end).
Proof.
  unfold handleSpecialCommandStatusCode. cbv zeta.
  destruct (switch_status (u16 status)); eauto with quiet.
Qed.

Lemma sendSpecialCommand_calls (command argument : Z) (w : World T) :
  calls (snd (sendSpecialCommand command argument w))
  = calls w ++
    [WriteCall (_modbusID (self w)) (offsetRegister (self w) REGISTER_COMMAND_ID)
       [u16 command; u16 argument];
     ReadCall (_modbusID (self w)) (offsetRegister (self w) REGISTER_COMMAND_ARGUMENT) 1].
Proof.
  unfold sendSpecialCommand. cbv zeta.
  unfold bind at 1. unfold this at 1. cbv iota beta.
  unfold bind at 1. unfold modbus_write at 1. step_bus. cbv iota beta.
  unfold bind at 1. rewrite readSingleRegister_run. cbn [self modbus calls serial].
  step_bus; cbv iota beta zeta.
  - destruct (response_at reply 0) as [|s] eqn:Es.
    + simpl. rewrite <- app_assoc. reflexivity.
    + rewrite (bind_Done _ _ _ _ _ (eq_refl : use (Vdef s) _ = (Done s, _))).
      destruct (quiet_calls _ _
                  (Build_World (self w) bus0
                     ((calls w ++ [WriteCall (_modbusID (self w))
                                     (offsetRegister (self w) REGISTER_COMMAND_ID)
                                     [u16 command; u16 argument]]) ++
                      [ReadCall (_modbusID (self w))
                         (offsetRegister (self w) REGISTER_COMMAND_ARGUMENT) 1])
                     (serial w))
                  (handleSpecialCommandStatusCode_quiet _ s)) as (_ & -> & _).
      simpl. rewrite <- app_assoc. reflexivity.
  - simpl. rewrite <- app_assoc. reflexivity.
Qed.

Lemma int_wrap_in_range (x : Z) : INT_MIN <= x <= INT_MAX -> int_wrap x = x.
Proof.
  unfold INT_MIN, INT_MAX, int_wrap. intros Hx.
  rewrite Z.mod_small by lia. lia.
Qed.

Lemma int_wrap_range (x : Z) : INT_MIN <= int_wrap x <= INT_MAX.
Proof.
  unfold INT_MIN, INT_MAX, int_wrap.
  pose proof (Z.mod_pos_bound (x + 2147483648) 4294967296 ltac:(lia)). lia.
Qed.

Lemma int_wrap_congruent (x : Z) : exists k, int_wrap x = x + k * 4294967296.
Proof.
  exists (- ((x + 2147483648) / 4294967296)). unfold int_wrap.
  pose proof (Z.div_mod (x + 2147483648) 4294967296 ltac:(lia)). lia.
Qed.

(** C5. [offsetRegister] returns the [int] sum of the address and of the
    configured offset: the sum itself whenever it lies within the range of
    [int], the sum reduced modulo 2^32 into that range otherwise.  Every
    primitive of the driver hands the transport that offset-corrected
    address and no other: [readSingleRegister], [readRegistersAsFloat],
    [writeRegistersAsFloat] and [writeSingleRegister] issue exactly one
    call, at the [int] sum of their register and of the offset, and
    [sendSpecialCommand] issues its write and its read at the [int] sums
    of the command and argument registers and of the offset. *)
Theorem transport_calls_use_offset_address (registerAddress : Z) (w : World T) :
  let d := self w in
  let id := _modbusID d in
  let o := _registerOffset d in
  offsetRegister d registerAddress = int_add registerAddress o
  /\ (INT_MIN <= registerAddress + o <= INT_MAX ->
      offsetRegister d registerAddress = registerAddress + o)
  /\ (INT_MIN <= offsetRegister d registerAddress <= INT_MAX
      /\ exists k, offsetRegister d registerAddress = registerAddress + o + k * 2 ^ 32)
  /\ (forall registerValue,
        calls (snd (readSingleRegister registerAddress registerValue w))
        = calls w ++ [ReadCall id (int_add registerAddress o) 1])
  /\ (forall floatValue,
        calls (snd (readRegistersAsFloat registerAddress floatValue w))
        = calls w ++ [ReadCall id (int_add registerAddress o) 2])
  /\ (forall floatValue,
        calls (snd (writeRegistersAsFloat registerAddress floatValue w))
        = calls w ++ [WriteCall id (int_add registerAddress o)
                        [Z.land (Z.shiftr floatValue 16) 0xFFFF; Z.land floatValue 0xFFFF]])
  /\ (forall registerValue,
        calls (snd (writeSingleRegister registerAddress registerValue w))
        = calls w ++ [WriteCall id (int_add registerAddress o) [u16 registerValue]])
  /\ (forall command argument,
        calls (snd (sendSpecialCommand command argument w))
        = calls w ++ [WriteCall id (int_add REGISTER_COMMAND_ID o)
                        [u16 command; u16 argument];
                      ReadCall id (int_add REGISTER_COMMAND_ARGUMENT o) 1]).
Proof.
  cbv zeta. split; [reflexivity |].
  split; [intros Hr; unfold offsetRegister, int_add; apply int_wrap_in_range, Hr |].
  split.
  { unfold offsetRegister, int_add. split; [apply int_wrap_range |].
    change (2 ^ 32) with 4294967296. apply int_wrap_congruent. }
  repeat split; intros.
  - rewrite readSingleRegister_run. cbv zeta. step_bus; reflexivity.
  - rewrite readRegistersAsFloat_run. cbv zeta. step_bus; reflexivity.
  - rewrite writeRegistersAsFloat_run. cbv zeta. step_bus; reflexivity.
  - rewrite writeSingleRegister_run. cbv zeta. step_bus; reflexivity.
  - apply sendSpecialCommand_calls.
Qed.

(** ** Floats across a register pair *)

Lemma halves_join (f : Z) :
  Z.lor (Z.shiftl (Z.shiftr f 16) 16) (Z.land f 0xFFFF) = f.
Proof.
  change 0xFFFF with (Z.ones 16).
  apply Z.bits_inj'. intros n Hn.
  rewrite Z.lor_spec, Z.land_spec, Z.shiftl_spec by assumption.
  destruct (Z.lt_ge_cases n 16) as [Hlo | Hhi].
  - rewrite (Z.testbit_neg_r _ (n - 16)) by lia.
    rewrite Z.ones_spec_low by lia. rewrite andb_true_r. reflexivity.
  - rewrite Z.shiftr_spec by lia. rewrite Z.ones_spec_high by lia.
    rewrite andb_false_r, orb_false_r. f_equal. lia.
Qed.

Lemma u16_low_half (f : Z) : u16 (Z.land f 0xFFFF) = Z.land f 0xFFFF.
Proof.
  unfold u16. change 0xFFFF with (Z.ones 16). rewrite Z.land_ones by lia.
  change (2 ^ 16) with 65536. apply Z.mod_mod. lia.
Qed.

Lemma high_half_range (f : Z) : 0 <= f < 2 ^ 32 -> 0 <= Z.shiftr f 16 < 65536.
Proof.
  intros Hf. rewrite Z.shiftr_div_pow2 by lia. change (2 ^ 16) with 65536.
  change (2 ^ 32) with (65536 * 65536) in Hf.
  split; [apply Z.div_pos; lia | apply Z.div_lt_upper_bound; lia].
Qed.

Lemma u16_id (x : Z) : 0 <= x < 65536 -> u16 x = x.
Proof. intros Hx. unfold u16. apply Z.mod_small. exact Hx. Qed.

Lemma u16_idem (x : Z) : u16 (u16 x) = u16 x.
Proof. unfold u16. apply Z.mod_mod. lia. Qed.

Lemma high_half_masked (f : Z) :
  0 <= f < 2 ^ 32 -> Z.land (Z.shiftr f 16) 0xFFFF = Z.shiftr f 16.
Proof.
  intros Hf. change 0xFFFF with (Z.ones 16). rewrite Z.land_ones by lia.
  apply (u16_id _ (high_half_range f Hf)).
Qed.

(** The union seen as a float, once both halves were stored. *)
Lemma union_round_trip (f : Z) :
  0 <= f < 2 ^ 32 ->
  asFloat_of_asBytes (Vdef <$> asBytes_of_asFloat f) = Vdef f.
Proof.
  intros Hf. simpl. rewrite (high_half_masked f Hf), halves_join. reflexivity.
Qed.

Lemma readRegistersAsFloat_decodes
  (f registerAddress : Z) (floatValue : val Z) (bus : T) (w : World T) :
  0 <= f < 2 ^ 32 ->
  readHoldingRegisterValues (modbus w) (_modbusID (self w))
    (offsetRegister (self w) registerAddress) 2
  = (Some [Z.shiftr f 16; Z.land f 0xFFFF], bus) ->
  fst (readRegistersAsFloat registerAddress floatValue w) = Done (Vdef f).
Proof.
  intros Hf Hread.
  rewrite readRegistersAsFloat_run. cbv zeta. rewrite Hread.
  unfold response_at. cbn [lookup list_lookup fst].
  rewrite u16_low_half, (u16_id _ (high_half_range f Hf)).
  unfold asFloat_of_asBytes. rewrite halves_join. reflexivity.
Qed.

(** C4. The two words [writeRegistersAsFloat] emits for a float are its
    high 16 bits, then its low 16 bits, and [readRegistersAsFloat], given
    these two words in this order by the transport, stores the same 32 bits
    in its output: the round trip is exact for every bit pattern. *)
Theorem float_round_trip
  (f registerAddress : Z) (w : World T) :
  0 <= f < 2 ^ 32 ->
  calls (snd (writeRegistersAsFloat registerAddress f w))
  = calls w ++ [WriteCall (_modbusID (self w)) (offsetRegister (self w) registerAddress)
                  [Z.shiftr f 16; Z.land f 0xFFFF]]
  /\ forall (w' : World T) (bus : T) (floatValue : val Z),
       readHoldingRegisterValues (modbus w') (_modbusID (self w'))
         (offsetRegister (self w') registerAddress) 2
       = (Some [Z.shiftr f 16; Z.land f 0xFFFF], bus) ->
       fst (readRegistersAsFloat registerAddress floatValue w') = Done (Vdef f).
Proof.
  intros Hf. split.
  - rewrite writeRegistersAsFloat_run. cbv zeta.
    rewrite (high_half_masked f Hf). step_bus. reflexivity.
  - intros w' bus floatValue Hread.
    apply (readRegistersAsFloat_decodes f registerAddress floatValue bus w' Hf Hread).
Qed.

(** ** Special commands *)

Lemma switch_status_success (status : Z) :
  (match switch_status status with CaseSuccess => true | _ => false end)
  = (status =? STATUS_CODE_SUCCESS).
Proof.
  unfold switch_status.
  repeat match goal with
         | |- context [?a =? ?b] =>
             lazymatch b with
             | STATUS_CODE_SUCCESS => fail
             | _ => destruct (a =? b)
             end
         end;
    destruct (status =? STATUS_CODE_SUCCESS); reflexivity.
Qed.

Lemma handleSpecialCommandStatusCode_result (status : Z) (w : World T) :
  fst (handleSpecialCommandStatusCode status w) = Done (u16 status =? STATUS_CODE_SUCCESS).
Proof.
  rewrite <- switch_status_success.
  apply (quiet_calls _ _ w (handleSpecialCommandStatusCode_quiet _ status)).
Qed.

Lemma switch_status_default (status : Z) :
  ~ In status known_status_codes -> switch_status status = CaseDefault.
Proof.
  intros Hnot. unfold switch_status.
  repeat match goal with
         | |- context [status =? ?c] =>
             destruct (Z.eqb_spec status c) as [-> | _];
             [exfalso; apply Hnot; unfold known_status_codes; simpl; tauto |]
         end.
  reflexivity.
Qed.

Lemma report_run (msg : string) (w : World T) :
  report msg w
  = (Done tt,
     Build_World (self w) (modbus w) (calls w)
       (serial w ++ if _verbose (self w) then [println_str msg] else [])).
Proof.
  unfold_monad. destruct (_verbose (self w)); simpl.
  - reflexivity.
  - rewrite app_nil_r, world_eta. reflexivity.
Qed.

Lemma sendSpecialCommand_result (command argument : Z) (w : World T) :
  let d := self w in
  let bus1 := snd (writeHoldingRegisterValues (modbus w) (_modbusID d)
                     (offsetRegister d REGISTER_COMMAND_ID) [u16 command; u16 argument]) in
  let reply := fst (readHoldingRegisterValues bus1 (_modbusID d)
                      (offsetRegister d REGISTER_COMMAND_ARGUMENT) 1) in
  fst (sendSpecialCommand command argument w)
  = match reply with
    | Some response =>
        match response_at response 0 with
        | Vdef status => Done (status =? STATUS_CODE_SUCCESS)
        | Vundef => Undefined
        end
    | None => Undefined
    end.
Proof.
  cbv zeta. unfold sendSpecialCommand. cbv zeta.
  unfold bind at 1. unfold this at 1. cbv iota beta.
  unfold bind at 1. unfold modbus_write at 1.
  destruct (writeHoldingRegisterValues _ _ _ _) as [ack bus1]. cbv iota beta.
  unfold bind at 1. rewrite readSingleRegister_run. cbn [self modbus calls serial snd].
  step_bus; cbv iota beta zeta; cbn [fst].
  - destruct (response_at reply 0) as [|s] eqn:Es.
    + reflexivity.
    + rewrite (bind_Done _ _ _ _ _ (eq_refl : use (Vdef s) _ = (Done s, _))).
      rewrite handleSpecialCommandStatusCode_result.
      unfold response_at in Es. destruct (reply !! 0%nat); [| discriminate].
      injection Es as <-. unfold u16. rewrite Z.mod_mod by lia. reflexivity.
  - reflexivity.
Qed.

Lemma sendSpecialCommand_classifies
  (command argument status : Z) (rest : list Z) (ack : bool) (bus1 bus2 : T)
  (w : World T) :
  writeHoldingRegisterValues (modbus w) (_modbusID (self w))
    (offsetRegister (self w) REGISTER_COMMAND_ID) [u16 command; u16 argument]
  = (ack, bus1) ->
  readHoldingRegisterValues bus1 (_modbusID (self w))
    (offsetRegister (self w) REGISTER_COMMAND_ARGUMENT) 1
  = (Some (status :: rest), bus2) ->
  sendSpecialCommand command argument w
  = handleSpecialCommandStatusCode (u16 status)
      (Build_World (self w) bus2
         (calls w ++
          [WriteCall (_modbusID (self w)) (offsetRegister (self w) REGISTER_COMMAND_ID)
             [u16 command; u16 argument];
           ReadCall (_modbusID (self w))
             (offsetRegister (self w) REGISTER_COMMAND_ARGUMENT) 1])
         (serial w)).
Proof.
  intros Hwrite Hread. unfold sendSpecialCommand. cbv zeta.
  unfold bind at 1. unfold this at 1. cbv iota beta.
  unfold bind at 1. unfold modbus_write at 1. rewrite Hwrite. cbv iota beta.
  unfold bind at 1. rewrite readSingleRegister_run. cbn [self modbus calls serial].
  rewrite Hread. cbv iota beta zeta.
  unfold response_at. cbn [lookup list_lookup].
  rewrite (bind_Done _ _ _ _ _ (eq_refl : use (Vdef (u16 status)) _ = (Done (u16 status), _))).
  rewrite <- app_assoc. reflexivity.
Qed.

Lemma handleSpecialCommandStatusCode_invalid_command_id (w : World T) :
  handleSpecialCommandStatusCode STATUS_CODE_INVALID_COMMAND_ID w
  = (Done false,
     Build_World (self w) (modbus w) (calls w)
       (serial w ++ if _verbose (self w)
                    then [println_str "ERROR: INVALID COMMAND ID"] else [])).
Proof.
  unfold handleSpecialCommandStatusCode. cbv zeta.
  change (switch_status (u16 STATUS_CODE_INVALID_COMMAND_ID)) with CaseInvalidCommandId.
  cbv iota. unfold bind. rewrite report_run. reflexivity.
Qed.

Lemma handleSpecialCommandStatusCode_unknown (status : Z) (w : World T) :
  0 <= status < 65536 ->
  ~ In status known_status_codes ->
  handleSpecialCommandStatusCode status w
  = (Done false,
     Build_World (self w) (modbus w) (calls w)
       (serial w ++ if _verbose (self w)
                    then [println_str "ERROR: UNKNOWN STATUS CODE"] else [])).
Proof.
  intros Hs Hnot. unfold handleSpecialCommandStatusCode. cbv zeta.
  rewrite (u16_id _ Hs), (switch_status_default _ Hnot).
  unfold bind. rewrite report_run. reflexivity.
Qed.

(** C6. When the write of a special command has been issued and the read
    of the command-argument register succeeds and answers the 16-bit word
    [status], [sendSpecialCommand] returns true if and only if [status] is
    0 ([STATUS_CODE_SUCCESS]) and false for every other word.  The word
    32769 is classified as an invalid command id: the result is false and
    the diagnostic line is that of the invalid command id.  A word that is
    none of the seven known codes is classified as unknown: the result is
    false and the diagnostic line is that of the unknown status code.
    [handleSpecialCommandStatusCode] classifies the same way on its own. *)
Theorem special_command_status
  (command argument status : Z) (rest : list Z) (ack : bool) (bus1 bus2 : T)
  (w : World T) :
  0 <= status < 65536 ->
  writeHoldingRegisterValues (modbus w) (_modbusID (self w))
    (offsetRegister (self w) REGISTER_COMMAND_ID) [u16 command; u16 argument]
  = (ack, bus1) ->
  readHoldingRegisterValues bus1 (_modbusID (self w))
    (offsetRegister (self w) REGISTER_COMMAND_ARGUMENT) 1
  = (Some (status :: rest), bus2) ->
  let w1 :=
    Build_World (self w) bus2
      (calls w ++
       [WriteCall (_modbusID (self w)) (offsetRegister (self w) REGISTER_COMMAND_ID)
          [u16 command; u16 argument];
        ReadCall (_modbusID (self w))
          (offsetRegister (self w) REGISTER_COMMAND_ARGUMENT) 1])
      (serial w) in
  (fst (sendSpecialCommand command argument w) = Done true
   <-> status = STATUS_CODE_SUCCESS)
  /\ (status <> STATUS_CODE_SUCCESS ->
      fst (sendSpecialCommand command argument w) = Done false)
  /\ (status = STATUS_CODE_SUCCESS ->
      sendSpecialCommand command argument w = (Done true, w1))
  /\ (status = 32769 ->
      switch_status status = CaseInvalidCommandId
      /\ sendSpecialCommand command argument w
         = (Done false,
            Build_World (self w) bus2 (calls w1)
              (serial w ++ if _verbose (self w)
                           then [println_str "ERROR: INVALID COMMAND ID"] else [])))
  /\ (~ In status [0; 32769; 32770; 32771; 32772; 32773; 32774] ->
      switch_status status = CaseDefault
      /\ sendSpecialCommand command argument w
         = (Done false,
            Build_World (self w) bus2 (calls w1)
              (serial w ++ if _verbose (self w)
                           then [println_str "ERROR: UNKNOWN STATUS CODE"] else [])))
  /\ (forall (code : Z) (w0 : World T),
        0 <= code < 65536 ->
        (fst (handleSpecialCommandStatusCode code w0) = Done true
         <-> code = STATUS_CODE_SUCCESS)
        /\ (code <> STATUS_CODE_SUCCESS ->
            fst (handleSpecialCommandStatusCode code w0) = Done false)).
Proof.
  intros Hs Hwrite Hread. cbv zeta.
  rewrite (sendSpecialCommand_classifies command argument status rest ack bus1 bus2 w
             Hwrite Hread).
  rewrite (u16_id _ Hs).
  assert (forall (code : Z) (w0 : World T),
            0 <= code < 65536 ->
            (fst (handleSpecialCommandStatusCode code w0) = Done true
             <-> code = STATUS_CODE_SUCCESS)
            /\ (code <> STATUS_CODE_SUCCESS ->
                fst (handleSpecialCommandStatusCode code w0) = Done false)) as Hhandle.
  { intros code w0 Hc.
    rewrite handleSpecialCommandStatusCode_result, (u16_id _ Hc). split.
    - split.
      + intros E. injection E as E. apply Z.eqb_eq in E. exact E.
      + intros ->. reflexivity.
    - intros Hne. apply Z.eqb_neq in Hne. rewrite Hne. reflexivity. }
  split; [apply Hhandle, Hs |].
  split; [apply Hhandle, Hs |].
  split; [intros ->; reflexivity |].
  split.
  - intros ->. split; [reflexivity |].
    apply handleSpecialCommandStatusCode_invalid_command_id.
  - split; [| exact Hhandle].
    intros Hnot. split; [apply switch_status_default, Hnot |].
    apply handleSpecialCommandStatusCode_unknown; assumption.
Qed.

(** ** Capability gating *)

Ltac eval_gate Hdev :=
  unfold deviceIsMassFlow, deviceIsController, deviceIsPressureController,
    deviceIsLiquid;
  rewrite Hdev; cbn [device_type_tag]; cbv beta; simpl.

Ltac close_gate t Hdev Hsup :=
  lazymatch goal with
  | |- quiet T _ (tare ?a) _ =>
      unfold tare; cbv zeta;
      (eapply quiet_bind; [apply quiet_this |]); cbv beta;
      unfold supported in Hsup;
      destruct (u16 a =? 0), (u16 a =? 1), (u16 a =? 2);
      destruct t; simpl in Hsup; try discriminate Hsup;
      eval_gate Hdev; eauto 12 with quiet
  | |- _ =>
      unfold setSetpoint, getSetpoint, getFlowTemperature, getVolumetricFlow,
        getMassFlow, getMassTotal, getGasNumber, setGasNumber,
        setMixtureGasProperties, getMixtureGasProperties, changeGasNumber,
        createCustomGasMixture, deleteCustomGasMixture, readPIDValue;
      cbv zeta;
      (eapply quiet_bind; [apply quiet_this |]); cbv beta;
      destruct t; simpl in Hsup; try discriminate Hsup;
      eval_gate Hdev; eauto with quiet
  end.

Lemma gate_closed_quiet (t : DeviceType) (op : Operation) (d : AlicatMODBUSRTU) :
  _deviceType d = device_type_tag t ->
  supported t op = false ->
  quiet T d (invoke op) (outputs op).
Proof.
  intros Hdev Hsup.
  destruct op;
    unfold invoke, no_output, one_output, outputs;
    (eapply quiet_bind; [close_gate t Hdev Hsup | apply quiet_ret]).
Qed.

(** C1. On every device type, a type-restricted operation that the type
    does not support (for [tare], that the type does not support with the
    given argument) returns right after its gate: the transport log and
    the transport are as before the call, so neither
    [readHoldingRegisterValues] nor [writeHoldingRegisterValues] was
    called, and the output locations keep their contents. *)
Theorem capability_gating (t : DeviceType) (op : Operation) (w : World T) :
  _deviceType (self w) = device_type_tag t ->
  supported t op = false ->
  calls (snd (invoke op w)) = calls w
  /\ modbus (snd (invoke op w)) = modbus w
  /\ fst (invoke op w) = Done (outputs op).
Proof.
  intros Hdev Hsup.
  destruct (quiet_calls _ _ w (gate_closed_quiet t op (self w) Hdev Hsup))
    as (Hr & Hc & Hm & _).
  auto.
Qed.

(** ** Status flags *)

Lemma quiet_report_flag (d : AlicatMODBUSRTU) (b : bool) (msg : string) :
  quiet T d (report_flag (Vdef b) msg) tt.
Proof. unfold report_flag. eauto with quiet. Qed.

#[local] Hint Resolve quiet_report_flag : quiet.

Lemma getStatusFlags_run (status : Z) (rest : list Z) (bus : T) (w : World T) :
  0 <= status < 65536 ->
  readHoldingRegisterValues (modbus w) (_modbusID (self w))
    (offsetRegister (self w) REGISTER_DEVICE_STATUS) 1 = (Some (status :: rest), bus) ->
  exists out,
    getStatusFlags w
    = (Done tt,
       Build_World
         (Build_AlicatMODBUSRTU (_verbose (self w)) (_registerOffset (self w))
            (_modbusID (self w)) (_deviceType (self w)) (decoded_status status))
         bus
         (calls w ++ [ReadCall (_modbusID (self w))
                        (offsetRegister (self w) REGISTER_DEVICE_STATUS) 1])
         (serial w ++ out)).
Proof.
  intros Hs Hread. unfold getStatusFlags. cbv zeta.
  unfold bind at 1. rewrite readSingleRegister_run. cbv zeta. rewrite Hread.
  unfold response_at. cbn [lookup list_lookup]. rewrite (u16_id _ Hs).
  unfold bind at 1. unfold this at 1. cbn [self modbus calls serial].
  unfold bind at 1. unfold set_self at 1. cbn [self modbus calls serial].
  unfold status_bit, val_map.
  replace (status >? 0) with (negb (status =? 0)) by lia.
  fold (decoded_status status).
  set (d' := Build_AlicatMODBUSRTU _ _ _ _ _).
  set (w' := Build_World d' _ _ _).
  destruct (_verbose (self w)).
  - match goal with
    | |- exists out, ?m w' = _ =>
        assert (quiet T d' m tt) as Hq by (cbn; eauto 40 with quiet)
    end.
    destruct (Hq w' eq_refl) as [out ->]. exists out. reflexivity.
  - exists []. unfold ret, w'. rewrite app_nil_r. reflexivity.
Qed.

(** C8. After a successful read of the status register that returns the
    word [status], each of the 14 named flags of [_status] is true exactly
    when its bit constant is set in [status] (the AND with the constant is
    not 0), and [ANY_ERROR] is true exactly when [status] is not 0; for the
    word 0 all 15 flags are false. *)
Theorem status_flags_decode (status : Z) (rest : list Z) (bus : T) (w : World T) :
  0 <= status < 65536 ->
  readHoldingRegisterValues (modbus w) (_modbusID (self w))
    (offsetRegister (self w) REGISTER_DEVICE_STATUS) 1 = (Some (status :: rest), bus) ->
  let st := _status (self (snd (getStatusFlags w))) in
  fst (getStatusFlags w) = Done tt
  /\ TEMPERATURE_OVERFLOW st
     = Vdef (negb (Z.land status STATUS_BIT_TEMPERATURE_OVERFLOW =? 0))
  /\ TEMPERATURE_UNDERFLOW st
     = Vdef (negb (Z.land status STATUS_BIT_TEMPERATURE_UNDERFLOW =? 0))
  /\ VOLUMETRIC_OVERFLOW st
     = Vdef (negb (Z.land status STATUS_BIT_VOLUMETRIC_OVERFLOW =? 0))
  /\ VOLUMETRIC_UNDERFLOW st
     = Vdef (negb (Z.land status STATUS_BIT_VOLUMETRIC_UNDERFLOW =? 0))
  /\ MASS_OVERFLOW st
     = Vdef (negb (Z.land status STATUS_BIT_MASS_OVERFLOW =? 0))
  /\ MASS_UNDERFLOW st
     = Vdef (negb (Z.land status STATUS_BIT_MASS_UNDERFLOW =? 0))
  /\ PRESSURE_OVERFLOW st
     = Vdef (negb (Z.land status STATUS_BIT_PRESSURE_OVERFLOW =? 0))
  /\ TOTALIZER_OVERFLOW st
     = Vdef (negb (Z.land status STATUS_BIT_TOTALIZER_OVERFLOW =? 0))
  /\ PID_LOOP_IN_HOLD st
     = Vdef (negb (Z.land status STATUS_BIT_PID_LOOP_IN_HOLD =? 0))
  /\ ADC_ERROR st
     = Vdef (negb (Z.land status STATUS_BIT_ADC_ERROR =? 0))
  /\ PID_EXHAUST st
     = Vdef (negb (Z.land status STATUS_BIT_PID_EXHAUST =? 0))
  /\ OVER_PRESSURE_LIMIT st
     = Vdef (negb (Z.land status STATUS_BIT_OVER_PRESSURE_LIMIT =? 0))
  /\ FLOW_OVERFLOW_DURING_TOTALIZE st
     = Vdef (negb (Z.land status STATUS_BIT_FLOW_OVERFLOW_DURING_TOTALIZE =? 0))
  /\ MEASUREMENT_ABORTED st
     = Vdef (negb (Z.land status STATUS_BIT_MEASUREMENT_ABORTED =? 0))
  /\ ANY_ERROR st = Vdef (negb (status =? 0))
  /\ (status = 0 ->
      st = Build_StatusFlags
             (Vdef false) (Vdef false) (Vdef false) (Vdef false) (Vdef false)
             (Vdef false) (Vdef false) (Vdef false) (Vdef false) (Vdef false)
             (Vdef false) (Vdef false) (Vdef false) (Vdef false) (Vdef false)).
Proof.
  intros Hs Hread.
  destruct (getStatusFlags_run status rest bus w Hs Hread) as [out ->].
  cbn [fst snd self _status].
  repeat (split; [reflexivity |]).
  intros ->. reflexivity.
Qed.

(** ** The setpoint read *)

Lemma controller_is_mass_flow_or_pressure (d : AlicatMODBUSRTU) :
  deviceIsController d = true ->
  deviceIsMassFlow d = true
  \/ (deviceIsMassFlow d = false /\ deviceIsPressureController d = true).
Proof.
  unfold deviceIsController, deviceIsMassFlow, deviceIsPressureController.
  unfold DEVICE_TYPE_PSID_CONTROLLER, DEVICE_TYPE_GAUGE_PRESSURE_CONTROLLER,
    DEVICE_TYPE_MASS_FLOW_CONTROLLER, DEVICE_TYPE_MASS_FLOW_METER.
  intros Hc.
  destruct (Z.eqb_spec (_deviceType d) 3), (Z.eqb_spec (_deviceType d) 4),
    (Z.eqb_spec (_deviceType d) 0), (Z.eqb_spec (_deviceType d) 2);
    simpl in *; try discriminate; try lia; auto.
Qed.

Lemma getSetpoint_mass_flow (setPoint : val Z) (w : World T) :
  deviceIsController (self w) = true ->
  deviceIsMassFlow (self w) = true ->
  getSetpoint setPoint w
  = readRegistersAsFloat (REGISTER_DEVICE_STATISTIC_1_VALUE + 2 * (5 - 1)) setPoint w.
Proof.
  intros Hc Hm. unfold getSetpoint. unfold bind at 1. unfold this at 1.
  cbv beta iota zeta. rewrite Hc, Hm. cbn [negb].
  unfold bind at 1. rewrite statistic_in_range by lia.
  reflexivity.
Qed.

Lemma getSetpoint_pressure (setPoint : val Z) (w : World T) :
  deviceIsController (self w) = true ->
  deviceIsMassFlow (self w) = false ->
  deviceIsPressureController (self w) = true ->
  getSetpoint setPoint w
  = readRegistersAsFloat (REGISTER_DEVICE_STATISTIC_1_VALUE + 2 * (2 - 1)) setPoint w.
Proof.
  intros Hc Hm Hp. unfold getSetpoint. unfold bind at 1. unfold this at 1.
  cbv beta iota zeta. rewrite Hc, Hm, Hp. cbn [negb].
  unfold bind at 1. rewrite statistic_in_range by lia.
  reflexivity.
Qed.

Lemma readRegistersAsFloat_defined (registerAddress : Z) (floatValue : val Z) (w : World T) :
  exists v, fst (readRegistersAsFloat registerAddress floatValue w) = Done v.
Proof.
  rewrite readRegistersAsFloat_run. cbv zeta. step_bus; eexists; reflexivity.
Qed.

Lemma getSetpoint_defined (setPoint : val Z) (w : World T) :
  exists v, fst (getSetpoint setPoint w) = Done v.
Proof.
  destruct (deviceIsController (self w)) eqn:Hc.
  - destruct (controller_is_mass_flow_or_pressure _ Hc) as [Hm | [Hm Hp]].
    + rewrite getSetpoint_mass_flow by assumption. apply readRegistersAsFloat_defined.
    + rewrite getSetpoint_pressure by assumption. apply readRegistersAsFloat_defined.
  - exists setPoint. unfold getSetpoint. unfold bind at 1. unfold this at 1.
    cbv beta iota zeta. rewrite Hc. cbn [negb].
    match goal with
    | |- fst (?m w) = _ =>
        assert (quiet T (self w) m setPoint) as Hq by eauto with quiet
    end.
    apply (quiet_calls _ _ w Hq).
Qed.

(** C9. Whenever [getSetpoint] passes its controller gate, exactly one of
    its two branches resolves the register address: the device is a
    mass-flow device and the read goes to statistic 5, or it is not and it
    is a pressure controller and the read goes to statistic 2.  Of the five
    defined types, the mass-flow controller takes the first branch and the
    two pressure controllers take the second.  The path on which the
    address would be used without having been assigned is never taken: for
    every device type the call returns, and never by using an unassigned
    address. *)
Theorem getSetpoint_address_resolved (setPoint : val Z) (w : World T) :
  (deviceIsController (self w) = true ->
   (deviceIsMassFlow (self w) = true
    /\ getSetpoint setPoint w
       = readRegistersAsFloat (REGISTER_DEVICE_STATISTIC_1_VALUE + 2 * (5 - 1)) setPoint w)
   \/ (deviceIsMassFlow (self w) = false
       /\ deviceIsPressureController (self w) = true
       /\ getSetpoint setPoint w
          = readRegistersAsFloat (REGISTER_DEVICE_STATISTIC_1_VALUE + 2 * (2 - 1)) setPoint w))
  /\ (forall t, _deviceType (self w) = device_type_tag t ->
        deviceIsController (self w) = true ->
        (t = MassFlowController /\ deviceIsMassFlow (self w) = true)
        \/ ((t = PSIDController \/ t = GaugePressureController)
            /\ deviceIsMassFlow (self w) = false
            /\ deviceIsPressureController (self w) = true))
  /\ (exists v, fst (getSetpoint setPoint w) = Done v).
Proof.
  split; [| split].
  - intros Hc.
    destruct (controller_is_mass_flow_or_pressure _ Hc) as [Hm | [Hm Hp]].
    + left. split; [exact Hm | apply getSetpoint_mass_flow; assumption].
    + right. split; [exact Hm |]. split; [exact Hp |].
      apply getSetpoint_pressure; assumption.
  - intros t Ht.
    unfold deviceIsController, deviceIsMassFlow, deviceIsPressureController.
    rewrite Ht. destruct t; simpl; intros; try discriminate; auto.
  - apply getSetpoint_defined.
Qed.

(** ** Reading a PID coefficient *)

Lemma sendSpecialCommand_run (command argument status : Z) (rest : list Z)
  (ack : bool) (bus1 bus2 : T) (w : World T) :
  writeHoldingRegisterValues (modbus w) (_modbusID (self w))
    (offsetRegister (self w) REGISTER_COMMAND_ID) [u16 command; u16 argument]
  = (ack, bus1) ->
  readHoldingRegisterValues bus1 (_modbusID (self w))
    (offsetRegister (self w) REGISTER_COMMAND_ARGUMENT) 1
  = (Some (status :: rest), bus2) ->
  exists out,
    sendSpecialCommand command argument w
    = (Done (u16 status =? STATUS_CODE_SUCCESS),
       Build_World (self w) bus2
         (calls w ++
          [WriteCall (_modbusID (self w)) (offsetRegister (self w) REGISTER_COMMAND_ID)
             [u16 command; u16 argument];
           ReadCall (_modbusID (self w))
             (offsetRegister (self w) REGISTER_COMMAND_ARGUMENT) 1])
         (serial w ++ out)).
Proof.
  intros Hwrite Hread. unfold sendSpecialCommand. cbv zeta.
  unfold bind at 1. unfold this at 1. cbv iota beta.
  unfold bind at 1. unfold modbus_write at 1. rewrite Hwrite. cbv iota beta.
  unfold bind at 1. rewrite readSingleRegister_run. cbn [self modbus calls serial].
  rewrite Hread. cbv iota beta zeta.
  unfold response_at. cbn [lookup list_lookup].
  rewrite (bind_Done _ _ _ _ _ (eq_refl : use (Vdef (u16 status)) _ = (Done (u16 status), _))).
  match goal with
  | |- exists out, handleSpecialCommandStatusCode ?s ?w' = _ =>
      destruct (handleSpecialCommandStatusCode_quiet (self w) s w' eq_refl) as [out E]
  end.
  exists out. rewrite E. cbn [self modbus calls serial].
  rewrite u16_idem, switch_status_success, <- app_assoc. reflexivity.
Qed.

(** C10. On a controller, for a coefficient id of 0, 1 or 2, when the
    reads of the transport succeed, [readPIDValue] stores in its output the
    word that its second read of the command-argument register returns,
    whatever status code [sendSpecialCommand] got at its own read: the
    boolean of [sendSpecialCommand] does not decide anything.  When the
    register still holds a status code other than success, the output
    receives that status code. *)
Theorem readPIDValue_ignores_command_status
  (coefficientID status value : Z) (rest rest' : list Z) (coefficientValue : val Z)
  (ack : bool) (bus1 bus2 bus3 : T) (w : World T) :
  deviceIsController (self w) = true ->
  0 <= coefficientID <= 2 ->
  writeHoldingRegisterValues (modbus w) (_modbusID (self w))
    (offsetRegister (self w) REGISTER_COMMAND_ID)
    [SPECIAL_COMMAND_READ_PID_VALUE; coefficientID]
  = (ack, bus1) ->
  readHoldingRegisterValues bus1 (_modbusID (self w))
    (offsetRegister (self w) REGISTER_COMMAND_ARGUMENT) 1
  = (Some (status :: rest), bus2) ->
  readHoldingRegisterValues bus2 (_modbusID (self w))
    (offsetRegister (self w) REGISTER_COMMAND_ARGUMENT) 1
  = (Some (value :: rest'), bus3) ->
  fst (sendSpecialCommand SPECIAL_COMMAND_READ_PID_VALUE coefficientID w)
  = Done (u16 status =? STATUS_CODE_SUCCESS)
  /\ fst (readPIDValue coefficientID coefficientValue w) = Done (Vdef (u16 value))
  /\ (value = status -> 0 <= status < 65536 -> status <> STATUS_CODE_SUCCESS ->
      fst (sendSpecialCommand SPECIAL_COMMAND_READ_PID_VALUE coefficientID w) = Done false
      /\ fst (readPIDValue coefficientID coefficientValue w) = Done (Vdef status)).
Proof.
  intros Hc Hid Hwrite Hread1 Hread2.
  assert (u16 coefficientID = coefficientID) as Hid16 by (apply u16_id; lia).
  assert (u16 SPECIAL_COMMAND_READ_PID_VALUE = SPECIAL_COMMAND_READ_PID_VALUE)
    as Hcmd by reflexivity.
  destruct (sendSpecialCommand_run SPECIAL_COMMAND_READ_PID_VALUE coefficientID
              status rest ack bus1 bus2 w) as [out Esend].
  { rewrite Hcmd, Hid16. exact Hwrite. }
  { exact Hread1. }
  assert (fst (readPIDValue coefficientID coefficientValue w) = Done (Vdef (u16 value)))
    as Hout.
  { unfold readPIDValue. cbv zeta. rewrite Hid16.
    unfold bind at 1. unfold this at 1. cbv beta iota. rewrite Hc. cbn [negb].
    replace ((coefficientID <? 0) || (coefficientID >? 2)) with false
      by (symmetry; apply orb_false_iff; lia).
    unfold bind at 1. rewrite Esend.
    rewrite readSingleRegister_run. cbn [self modbus calls serial]. rewrite Hread2.
    reflexivity. }
  split; [rewrite Esend; reflexivity |].
  split; [exact Hout |].
  intros -> Hs Hne. rewrite Esend, Hout, (u16_id _ Hs). cbn [fst].
  apply Z.eqb_neq in Hne. rewrite Hne. auto.
Qed.

(** ** Gas mixture registers *)

Lemma getMixtureGasProperties_calls
  (mixtureIndex : Z) (gasIndex gasPercent : val Z) (w : World T) :
  deviceIsMassFlow (self w) = true ->
  1 <= mixtureIndex <= 5 ->
  calls (snd (getMixtureGasProperties mixtureIndex gasIndex gasPercent w))
  = calls w ++
    [ReadCall (_modbusID (self w))
       (offsetRegister (self w) (REGISTER_MIXTURE_GAS_1_INDEX + (mixtureIndex - 1))) 1;
     ReadCall (_modbusID (self w))
       (offsetRegister (self w) (REGISTER_MIXTURE_GAS_1_INDEX + (mixtureIndex - 1) + 1)) 1].
Proof.
  intros Hm Hi. unfold getMixtureGasProperties.
  unfold bind at 1. unfold this at 1. cbv beta iota zeta. rewrite Hm. cbn [negb].
  replace ((mixtureIndex <? 1) || (mixtureIndex >? 5)) with false
    by (symmetry; apply orb_false_iff; lia).
  unfold bind at 1. rewrite readSingleRegister_run. cbv zeta.
  step_bus; cbv beta iota;
    (unfold bind at 1; rewrite readSingleRegister_run; cbv zeta;
     cbn [self modbus calls serial];
     step_bus; cbv beta iota; unfold ret; cbn [snd calls];
     rewrite <- app_assoc; reflexivity).
Qed.

Lemma setMixtureGasProperties_calls
  (mixtureIndex gasIndex gasPercent gasPercentInt : Z) (w : World T) :
  deviceIsMassFlow (self w) = true ->
  1 <= mixtureIndex <= 5 ->
  0 <= gasIndex <= 210 ->
  double_lt (to_double (float_of_bits gasPercent)) (double_of_Z 0) = false ->
  double_lt (double_of_Z 100) (to_double (float_of_bits gasPercent)) = false ->
  uint16_of_rounded
    (round (double_mul (to_double (float_of_bits gasPercent)) (double_of_Z 100)))
  = Vdef gasPercentInt ->
  calls (snd (setMixtureGasProperties mixtureIndex gasIndex gasPercent w))
  = calls w ++
    [WriteCall (_modbusID (self w))
       (offsetRegister (self w) (REGISTER_MIXTURE_GAS_1_INDEX + 2 * (mixtureIndex - 1)))
       [gasIndex];
     WriteCall (_modbusID (self w))
       (offsetRegister (self w) (REGISTER_MIXTURE_GAS_1_INDEX + 2 * (mixtureIndex - 1) + 1))
       [u16 gasPercentInt]].
Proof.
  intros Hm Hi Hg Hlo Hhi Hpct. unfold setMixtureGasProperties. cbv zeta.
  assert (u16 gasIndex = gasIndex) as -> by (apply u16_id; lia).
  unfold bind at 1. unfold this at 1. cbv beta iota. rewrite Hm. cbn [negb].
  replace ((mixtureIndex <? 1) || (mixtureIndex >? 5)) with false
    by (symmetry; apply orb_false_iff; lia).
  replace ((gasIndex <? 0) || (gasIndex >? 210)) with false
    by (symmetry; apply orb_false_iff; lia).
  rewrite Hlo, Hhi. cbn [orb].
  unfold bind at 1. rewrite writeSingleRegister_run. cbv zeta.
  assert (u16 gasIndex = gasIndex) as -> by (apply u16_id; lia).
  step_bus. rewrite Hpct.
  rewrite (bind_Done _ _ _ _ _ (eq_refl : use (Vdef gasPercentInt) _ = (Done gasPercentInt, _))).
  rewrite writeSingleRegister_run. cbv zeta. cbn [self modbus calls serial].
  step_bus. cbn [snd calls]. rewrite <- app_assoc. reflexivity.
Qed.

(** ** Failed reads *)

(** The two read primitives leave the output alone when the transport
    reports failure. *)
Lemma readSingleRegister_failure
  (registerAddress : Z) (registerValue : val Z) (bus : T) (w : World T) :
  readHoldingRegisterValues (modbus w) (_modbusID (self w))
    (offsetRegister (self w) registerAddress) 1 = (None, bus) ->
  fst (readSingleRegister registerAddress registerValue w) = Done registerValue.
Proof. intros E. rewrite readSingleRegister_run. cbv zeta. rewrite E. reflexivity. Qed.

Lemma readRegistersAsFloat_failure
  (registerAddress : Z) (floatValue : val Z) (bus : T) (w : World T) :
  readHoldingRegisterValues (modbus w) (_modbusID (self w))
    (offsetRegister (self w) registerAddress) 2 = (None, bus) ->
  fst (readRegistersAsFloat registerAddress floatValue w) = Done floatValue.
Proof. intros E. rewrite readRegistersAsFloat_run. cbv zeta. rewrite E. reflexivity. Qed.

(** [getMixtureGasProperties] does not: its second read fills a local
    that has no value when the read fails, and the percentage computed from
    that local is stored in [gasPercent] all the same. *)
Lemma getMixtureGasProperties_failure
  (mixtureIndex : Z) (gasIndex gasPercent : val Z) (bus1 bus2 : T) (w : World T) :
  deviceIsMassFlow (self w) = true ->
  1 <= mixtureIndex <= 5 ->
  readHoldingRegisterValues (modbus w) (_modbusID (self w))
    (offsetRegister (self w) (REGISTER_MIXTURE_GAS_1_INDEX + (mixtureIndex - 1))) 1
  = (None, bus1) ->
  readHoldingRegisterValues bus1 (_modbusID (self w))
    (offsetRegister (self w) (REGISTER_MIXTURE_GAS_1_INDEX + (mixtureIndex - 1) + 1)) 1
  = (None, bus2) ->
  fst (getMixtureGasProperties mixtureIndex gasIndex gasPercent w)
  = Done (gasIndex, Vundef).
Proof.
  intros Hm Hi Hread1 Hread2. unfold getMixtureGasProperties.
  unfold bind at 1. unfold this at 1. cbv beta iota zeta. rewrite Hm. cbn [negb].
  replace ((mixtureIndex <? 1) || (mixtureIndex >? 5)) with false
    by (symmetry; apply orb_false_iff; lia).
  unfold bind at 1. rewrite readSingleRegister_run. cbv zeta.
  rewrite Hread1. cbv beta iota.
  unfold bind at 1. rewrite readSingleRegister_run. cbv zeta.
  cbn [self modbus calls serial]. rewrite Hread2. reflexivity.
Qed.

(** The semantic reads that are one float or one register read keep the
    content of their output when that read fails (or when they stop at
    their gate). *)
Lemma one_output_result (m : M T (val Z)) (v : val Z) (w : World T) :
  fst (m w) = Done v -> fst (one_output m w) = Done [v].
Proof.
  intros E. unfold one_output, bind. destruct (m w) as [[a |] w']; simpl in *.
  - injection E as ->. reflexivity.
  - discriminate.
Qed.

Ltac failed_read Hfail :=
  match goal with
  | |- context [readHoldingRegisterValues ?b ?i ?a ?n] =>
      let E := fresh "E" in
      pose proof (Hfail i a n) as E;
      destruct (readHoldingRegisterValues b i a n) as [? ?];
      cbn [fst] in E; subst
  end.

Ltac gate_fails :=
  match goal with
  | |- fst (?m ?w) = Done ?v =>
      assert (quiet T (self w) m v) as Hq by eauto with quiet;
      apply (quiet_calls _ _ w Hq)
  end.

Ltac statistic_read Hfail :=
  unfold bind at 1; rewrite statistic_in_range by lia;
  rewrite (bind_Done _ _ _ _ _ (eq_refl : use (Vdef _) _ = (Done _, _)));
  rewrite readRegistersAsFloat_run; cbv zeta; failed_read Hfail; reflexivity.

Lemma getPressure_keeps_output_on_failed_read (pressure : val Z) (w : World T) :
  (forall id a n, fst (readHoldingRegisterValues (modbus w) id a n) = None) ->
  fst (getPressure pressure w) = Done pressure.
Proof. intros Hfail. unfold getPressure. cbv zeta. statistic_read Hfail. Qed.

Lemma getters_keep_output_on_failed_read (op : Operation) (w : World T) :
  match op with
  | GetSetpoint _ | GetFlowTemperature _ | GetVolumetricFlow _
  | GetMassFlow _ | GetMassTotal _ | GetGasNumber _ => True
  | _ => False
  end ->
  (forall id a n, fst (readHoldingRegisterValues (modbus w) id a n) = None) ->
  fst (invoke op w) = Done (outputs op).
Proof.
  intros Hop Hfail.
  destruct op; try contradiction; unfold invoke, outputs; apply one_output_result.
  - unfold getSetpoint. unfold bind at 1. unfold this at 1. cbv beta iota zeta.
    destruct (deviceIsController (self w)) eqn:Hc; cbn [negb]; [| gate_fails].
    destruct (controller_is_mass_flow_or_pressure _ Hc) as [-> | [-> ->]];
      statistic_read Hfail.
  - unfold getFlowTemperature. unfold bind at 1. unfold this at 1. cbv beta iota zeta.
    destruct (negb (deviceIsMassFlow (self w)) && negb (deviceIsLiquid (self w)));
      [gate_fails | statistic_read Hfail].
  - unfold getVolumetricFlow. unfold bind at 1. unfold this at 1. cbv beta iota zeta.
    destruct (negb (deviceIsMassFlow (self w)) && negb (deviceIsLiquid (self w)));
      [gate_fails | statistic_read Hfail].
  - unfold getMassFlow. unfold bind at 1. unfold this at 1. cbv beta iota zeta.
    destruct (deviceIsMassFlow (self w)); cbn [negb];
      [statistic_read Hfail | gate_fails].
  - unfold getMassTotal. unfold bind at 1. unfold this at 1. cbv beta iota zeta.
    destruct (deviceIsMassFlow (self w)); cbn [negb]; [| gate_fails].
    destruct (deviceIsController (self w)); statistic_read Hfail.
  - unfold getGasNumber. unfold bind at 1. unfold this at 1. cbv beta iota zeta.
    destruct (deviceIsMassFlow (self w)); cbn [negb]; [| gate_fails].
    rewrite readSingleRegister_run. cbv zeta. failed_read Hfail. reflexivity.
Qed.

End Properties.

(** * The driver at work on concrete devices *)

(** The scenario of the specification for the first mixture slot: the
    values written are the values read back. *)
Example mixture_slot_1_round_trip :
  let r := (setMixtureGasProperties 1 47 float_50;;
            getMixtureGasProperties 1 Vundef Vundef) mass_flow_controller_on_bank in
  fst r = Done (Vdef 47, Vdef float_50)
  /\ calls (snd r)
     = [WriteCall 1 1049 [47]; WriteCall 1 1050 [5000];
        ReadCall 1 1049 1; ReadCall 1 1050 1].
Proof. vm_compute. split; reflexivity. Qed.

(** On a bank of registers, a float written to a register pair is the
    float read back from it. *)
Lemma register_bank_float_round_trip
  (f registerAddress : Z) (floatValue : val Z) (w : World (gmap Z Z)) :
  0 <= f < 2 ^ 32 ->
  fst ((writeRegistersAsFloat registerAddress f;;
        readRegistersAsFloat registerAddress floatValue) w)
  = Done (Vdef f).
Proof.
  intros Hf. unfold bind at 1. rewrite writeRegistersAsFloat_run. cbv zeta.
  rewrite (high_half_masked f Hf).
  cbn [writeHoldingRegisterValues register_bank store_words].
  eapply readRegistersAsFloat_decodes; [exact Hf |].
  cbn [self modbus readHoldingRegisterValues register_bank seq fmap list_fmap].
  repeat f_equal.
  - rewrite Z.add_0_r, lookup_insert_ne by lia. rewrite lookup_insert_eq. reflexivity.
  - change (Z.of_nat 1) with 1. rewrite lookup_insert_eq. reflexivity.
Qed.

(** C2 (defect of the code). For the mixture slot 2,
    [setMixtureGasProperties] writes the gas index and the percentage at
    the registers 1052 and 1053 (1051 and 1052 on the bus, after the
    offset -1), but [getMixtureGasProperties] reads the registers 1051 and
    1052 (1050 and 1051 on the bus): after writing gas 47 at 50.0 percent
    to a bank of zeroed registers it returns gas 0 at 0.47 percent. *)
Theorem mixture_slot_2_reads_other_registers :
  let r := (setMixtureGasProperties 2 47 float_50;;
            getMixtureGasProperties 2 Vundef Vundef) mass_flow_controller_on_bank in
  fst r = Done (Vdef 0, Vdef float_0_47)
  /\ calls (snd r)
     = [WriteCall 1 1051 [47]; WriteCall 1 1052 [5000];
        ReadCall 1 1050 1; ReadCall 1 1051 1].
Proof. vm_compute. split; reflexivity. Qed.

(** C3 (defect of the code). When both reads fail,
    [getMixtureGasProperties] leaves [gasIndex] as it was but overwrites
    [gasPercent], which held 12.5, with a value computed from a local that
    was never assigned. *)
Theorem mixture_percent_overwritten_on_failed_read :
  let r := getMixtureGasProperties 1 (Vdef 7) (Vdef float_12_5)
             mass_flow_meter_on_dead_bus in
  fst r = Done (Vdef 7, Vundef)
  /\ fst r <> Done (Vdef 7, Vdef float_12_5)
  /\ calls (snd r) = [ReadCall 1 1049 1; ReadCall 1 1050 1].
Proof. vm_compute. split; [reflexivity | split; [discriminate | reflexivity]]. Qed.

(** The same on slot 3, this time from the lemma that covers every slot
    and every transport. *)
Example mixture_percent_overwritten_on_dead_bus :
  fst (getMixtureGasProperties 3 (Vdef 7) (Vdef float_12_5) mass_flow_meter_on_dead_bus)
  = Done (Vdef 7, Vundef).
Proof.
  apply (getMixtureGasProperties_failure 3 _ _ [] []); [reflexivity | lia | | ];
    reflexivity.
Qed.

(** A PSID controller reads its setpoint from statistic 2, a mass-flow
    controller from statistic 5; a mass-flow meter stops at the gate. *)
Example getSetpoint_on_psid_controller :
  calls (snd (getSetpoint Vundef psid_controller_on_bank)) = [ReadCall 1 1204 2].
Proof. reflexivity. Qed.

Example getSetpoint_on_mass_flow_controller :
  calls (snd (getSetpoint Vundef mass_flow_controller_on_bank)) = [ReadCall 1 1210 2].
Proof. reflexivity. Qed.

Example getSetpoint_on_mass_flow_meter :
  getSetpoint (Vdef float_50) mass_flow_meter_on_dead_bus
  = (Done (Vdef float_50), mass_flow_meter_on_dead_bus).
Proof. reflexivity. Qed.

(** The mass total is statistic 5 on a meter and statistic 6 on a
    controller. *)
Example getMassTotal_on_meter :
  calls (snd (getMassTotal Vundef mass_flow_meter_on_dead_bus)) = [ReadCall 1 1210 2].
Proof. reflexivity. Qed.

Example getMassTotal_on_controller :
  calls (snd (getMassTotal Vundef mass_flow_controller_on_bank)) = [ReadCall 1 1212 2].
Proof. reflexivity. Qed.

(** A supported [tare] reaches the bus: the command, then the status. *)
Example tare_volume_on_mass_flow_controller :
  calls (snd (tare 2 mass_flow_controller_on_bank))
  = [WriteCall 1 999 [4; 2]; ReadCall 1 1000 1].
Proof. reflexivity. Qed.

(** With the offset [INT_MAX], the address of register 1203 wraps around
    to a negative [int], and that is the address on the bus. *)
Example offset_wraps_at_INT_MAX :
  calls (snd ((setRegisterOffset INT_MAX;; readSingleRegister 1203 Vundef)
                psid_controller_on_bank))
  = [ReadCall 1 (-2147482446) 1].
Proof. reflexivity. Qed.

(** ** The theorems at concrete inputs *)

Lemma capability_gating_witness :
  _deviceType (self psid_controller_on_bank) = device_type_tag PSIDController
  /\ supported PSIDController (Tare 2) = false
  /\ calls (snd (invoke (Tare 2) psid_controller_on_bank))
     = calls psid_controller_on_bank
  /\ modbus (snd (invoke (Tare 2) psid_controller_on_bank))
     = modbus psid_controller_on_bank
  /\ fst (invoke (Tare 2) psid_controller_on_bank) = Done (outputs (Tare 2)).
Proof.
  split; [reflexivity |]. split; [reflexivity |].
  apply (capability_gating PSIDController (Tare 2) psid_controller_on_bank);
    reflexivity.
Defined.

Lemma float_round_trip_witness :
  0 <= float_50 < 2 ^ 32
  /\ calls (snd (writeRegistersAsFloat REGISTER_SETPOINT float_50
                   mass_flow_controller_on_bank))
     = [WriteCall 1 1009 [0x4248; 0x0000]]
  /\ fst (readRegistersAsFloat REGISTER_SETPOINT Vundef
            (snd (writeRegistersAsFloat REGISTER_SETPOINT float_50
                    mass_flow_controller_on_bank)))
     = Done (Vdef float_50).
Proof.
  assert (0 <= float_50 < 2 ^ 32) as Hf by (unfold float_50; lia).
  split; [exact Hf |].
  destruct (float_round_trip float_50 REGISTER_SETPOINT mass_flow_controller_on_bank Hf)
    as [Hwrite Hread].
  split; [exact Hwrite |].
  apply (Hread _ (modbus (snd (writeRegistersAsFloat REGISTER_SETPOINT float_50
                                 mass_flow_controller_on_bank)))).
  reflexivity.
Defined.

Lemma status_flags_decode_witness :
  0 <= 0x0041 < 65536
  /\ fst (getStatusFlags meter_with_status_0x41) = Done tt
  /\ TEMPERATURE_OVERFLOW (_status (self (snd (getStatusFlags meter_with_status_0x41))))
     = Vdef true
  /\ PRESSURE_OVERFLOW (_status (self (snd (getStatusFlags meter_with_status_0x41))))
     = Vdef true
  /\ MASS_OVERFLOW (_status (self (snd (getStatusFlags meter_with_status_0x41))))
     = Vdef false
  /\ ANY_ERROR (_status (self (snd (getStatusFlags meter_with_status_0x41))))
     = Vdef true.
Proof.
  assert (0 <= 0x0041 < 65536) as Hs by lia.
  split; [exact Hs |].
  pose proof (status_flags_decode 0x0041 [] [] meter_with_status_0x41 Hs eq_refl)
    as (Hr & Htov & _ & _ & _ & Hmov & _ & Hpov & _ & _ & _ & _ & _ & _ & _ & Hany & _).
  repeat split; assumption.
Defined.

Lemma special_command_status_witness :
  0 <= STATUS_CODE_SUCCESS < 65536
  /\ 0 <= STATUS_CODE_INVALID_SETTING < 65536
  /\ fst (sendSpecialCommand SPECIAL_COMMAND_TARE 0 controller_accepting_command)
     = Done true
  /\ fst (sendSpecialCommand SPECIAL_COMMAND_READ_PID_VALUE 1
            controller_rejecting_command)
     = Done false.
Proof.
  assert (0 <= STATUS_CODE_SUCCESS < 65536) as H0
    by (unfold STATUS_CODE_SUCCESS; lia).
  assert (0 <= STATUS_CODE_INVALID_SETTING < 65536) as H1
    by (unfold STATUS_CODE_INVALID_SETTING; lia).
  split; [exact H0 |]. split; [exact H1 |]. split.
  - destruct (special_command_status SPECIAL_COMMAND_TARE 0 STATUS_CODE_SUCCESS []
                true [Some [STATUS_CODE_SUCCESS]] [] controller_accepting_command H0)
      as (Hiff & _); [reflexivity | reflexivity |].
    apply Hiff. reflexivity.
  - destruct (special_command_status SPECIAL_COMMAND_READ_PID_VALUE 1
                STATUS_CODE_INVALID_SETTING [] true
                [Some [STATUS_CODE_INVALID_SETTING]; Some [STATUS_CODE_INVALID_SETTING]]
                [Some [STATUS_CODE_INVALID_SETTING]] controller_rejecting_command H1)
      as (_ & Hfalse & _); [reflexivity | reflexivity |].
    apply Hfalse. discriminate.
Defined.

Lemma readPIDValue_ignores_command_status_witness :
  deviceIsController (self controller_rejecting_command) = true
  /\ fst (sendSpecialCommand SPECIAL_COMMAND_READ_PID_VALUE 1
            controller_rejecting_command) = Done false
  /\ fst (readPIDValue 1 (Vdef 5) controller_rejecting_command)
     = Done (Vdef STATUS_CODE_INVALID_SETTING).
Proof.
  split; [reflexivity |].
  assert (0 <= 1 <= 2) as Hid by lia.
  destruct (readPIDValue_ignores_command_status
              1 STATUS_CODE_INVALID_SETTING STATUS_CODE_INVALID_SETTING [] []
              (Vdef 5) true
              [Some [STATUS_CODE_INVALID_SETTING]; Some [STATUS_CODE_INVALID_SETTING]]
              [Some [STATUS_CODE_INVALID_SETTING]] []
              controller_rejecting_command)
    as (_ & _ & Hcode); [reflexivity | exact Hid | reflexivity .. |].
  apply Hcode; [reflexivity | unfold STATUS_CODE_INVALID_SETTING; lia | discriminate].
Defined.

(** * Further properties of the driver *)

Section Further.

Context {T : Type} `{ModbusInterface T}.

Ltac case_transport :=
  match goal with
  | |- context [readHoldingRegisterValues ?t ?i ?a ?n] =>
      destruct (readHoldingRegisterValues t i a n) as [[?|] ?] eqn:?
  | |- context [writeHoldingRegisterValues ?t ?i ?a ?l] =>
      destruct (writeHoldingRegisterValues t i a l) as [? ?] eqn:?
  end.

(** ** What an operation can do to the object and to the bus *)

Create HintDb quiet.
#[local] Hint Resolve quiet_ret quiet_this quiet_serial_emit quiet_when
  quiet_report quiet_use quiet_report_flag : quiet.
#[local] Hint Extern 2 (quiet _ _ (bind _ _) _) => eapply quiet_bind : quiet.

Lemma confined_ret {A : Type} d (P : Call -> Prop) (a : A) : confined T d P (ret a).
Proof. intros w Hw. split; [exact Hw |]. exists []. rewrite app_nil_r. auto. Qed.

Lemma confined_quiet {A : Type} d (P : Call -> Prop) (m : M T A) (a : A) :
  quiet T d m a -> confined T d P m.
Proof.
  intros Hq w Hw. destruct (Hq w Hw) as [out ->]. simpl.
  split; [reflexivity |]. exists []. rewrite app_nil_r. auto.
Qed.

Lemma confined_use {A : Type} d (P : Call -> Prop) (v : val A) : confined T d P (use v).
Proof.
  intros w Hw. destruct v; simpl; (split; [exact Hw |]); exists [];
    rewrite app_nil_r; auto.
Qed.

Lemma confined_bind {A B : Type} d (P : Call -> Prop) (m : M T A) (f : A -> M T B) :
  confined T d P m -> (forall a, confined T d P (f a)) -> confined T d P (bind m f).
Proof.
  intros Hm Hf w Hw. destruct (Hm w Hw) as (Hs & new & Hc & HP).
  unfold bind. destruct (m w) as [[a |] w1]; simpl in *.
  - destruct (Hf a w1 Hs) as (Hs2 & new2 & Hc2 & HP2).
    split; [exact Hs2 |]. exists (new ++ new2).
    rewrite Hc2, Hc, app_assoc. split; [reflexivity | apply Forall_app; auto].
  - split; [exact Hs |]. exists new. auto.
Qed.

Lemma confined_this_bind {B : Type} d (P : Call -> Prop) (f : AlicatMODBUSRTU -> M T B) :
  confined T d P (f d) -> confined T d P (bind this f).
Proof. intros Hf w Hw. unfold bind, this. rewrite Hw. apply Hf, Hw. Qed.

Lemma confined_modbus_read d (P : Call -> Prop) (id a : Z) (n : nat) :
  P (ReadCall id a n) -> confined T d P (modbus_read id a n).
Proof.
  intros HP w Hw. unfold modbus_read.
  destruct (readHoldingRegisterValues _ _ _ _) as [r t]. simpl.
  split; [exact Hw |]. exists [ReadCall id a n]. auto.
Qed.

Lemma confined_modbus_write d (P : Call -> Prop) (id a : Z) (data : list Z) :
  P (WriteCall id a data) -> confined T d P (modbus_write id a data).
Proof.
  intros HP w Hw. unfold modbus_write.
  destruct (writeHoldingRegisterValues _ _ _ _) as [r t]. simpl.
  split; [exact Hw |]. exists [WriteCall id a data]. auto.
Qed.

Ltac confine_step :=
  first
    [ apply confined_this_bind
    | apply confined_ret
    | apply confined_use
    | solve [eapply confined_quiet; eauto 12 with quiet]
    | apply confined_modbus_read
    | apply confined_modbus_write
    | (apply confined_bind; [| intros ?])
    | match goal with
      | |- confined _ _ _ (if ?c then _ else _) => destruct c
      | |- confined _ _ _ (match ?r with Some _ => _ | None => _ end) => destruct r
      end ].

Ltac confine := repeat confine_step.

Lemma confined_readSingleRegister d (P : Call -> Prop) (a : Z) (v : val Z) :
  P (ReadCall (_modbusID d) (offsetRegister d a) 1) ->
  confined T d P (readSingleRegister a v).
Proof. intros HP. unfold readSingleRegister. cbv zeta. confine. exact HP. Qed.

Lemma confined_readRegistersAsFloat d (P : Call -> Prop) (a : Z) (v : val Z) :
  P (ReadCall (_modbusID d) (offsetRegister d a) 2) ->
  confined T d P (readRegistersAsFloat a v).
Proof. intros HP. unfold readRegistersAsFloat. cbv zeta. confine. exact HP. Qed.

Lemma confined_writeSingleRegister d (P : Call -> Prop) (a x : Z) :
  P (WriteCall (_modbusID d) (offsetRegister d a) [u16 x]) ->
  confined T d P (writeSingleRegister a x).
Proof. intros HP. unfold writeSingleRegister. cbv zeta. confine. exact HP. Qed.

Lemma confined_writeRegistersAsFloat d (P : Call -> Prop) (a f : Z) :
  (forall data, P (WriteCall (_modbusID d) (offsetRegister d a) data)) ->
  confined T d P (writeRegistersAsFloat a f).
Proof. intros HP. unfold writeRegistersAsFloat. cbv zeta. confine. apply HP. Qed.

Lemma confined_statistic d (P : Call -> Prop) (i : Z) (v : val Z) :
  confined T d P (getDeviceStatisticRegisterAddress i v).
Proof. unfold getDeviceStatisticRegisterAddress. confine. Qed.

Lemma confined_sendSpecialCommand d (P : Call -> Prop) (command argument : Z) :
  (forall c, call_id c = _modbusID d -> P c) ->
  confined T d P (sendSpecialCommand command argument).
Proof.
  intros HP. unfold sendSpecialCommand. cbv zeta.
  apply confined_this_bind.
  apply confined_bind; [apply confined_modbus_write, HP; reflexivity | intros _].
  apply confined_bind; [apply confined_readSingleRegister, HP; reflexivity | intros s].
  apply confined_bind; [apply confined_use | intros s'].
  eapply confined_quiet, handleSpecialCommandStatusCode_quiet.
Qed.

Ltac confine_operation :=
  repeat first
    [ (apply confined_readSingleRegister; split; reflexivity)
    | (apply confined_readRegistersAsFloat; split; reflexivity)
    | (apply confined_writeSingleRegister; split; reflexivity)
    | (apply confined_writeRegistersAsFloat; intros ?; split; reflexivity)
    | apply confined_statistic
    | (apply confined_sendSpecialCommand;
       let c := fresh "c" in let Hc := fresh "Hc" in
       intros c Hc; split; [exact Hc | reflexivity])
    | confine_step ].

Lemma confined_invoke (op : Operation) (d : AlicatMODBUSRTU) :
  confined T d (fun c => call_id c = _modbusID d /\ call_kind_of op c = true) (invoke op).
Proof.
  destruct op;
    unfold invoke, no_output, one_output, setSetpoint, getSetpoint,
      getFlowTemperature, getVolumetricFlow, getMassFlow, getMassTotal,
      getGasNumber, setGasNumber, setMixtureGasProperties, getMixtureGasProperties,
      changeGasNumber, createCustomGasMixture, deleteCustomGasMixture,
      readPIDValue, tare;
    cbv zeta; confine_operation.
Qed.

(** X1. Whatever the device type, the arguments and the answers of the
    transport, a type-restricted operation leaves the data members of the
    object as they were, addresses every transport call to the configured
    [_modbusID], and keeps to its role on the bus: a getter only issues
    reads, a setter only issues writes. *)
Theorem operations_keep_object_and_bus_role (op : Operation) (w : World T) :
  self (snd (invoke op w)) = self w
  /\ exists new,
       calls (snd (invoke op w)) = calls w ++ new
       /\ Forall (fun c => call_id c = _modbusID (self w)
                          /\ call_kind_of op c = true) new.
Proof. apply (confined_invoke op (self w) w eq_refl). Qed.

(** ** Device types *)

Lemma device_predicates (d : AlicatMODBUSRTU) (t : DeviceType) :
  _deviceType d = device_type_tag t ->
  deviceIsMassFlow d = isMassFlow t
  /\ deviceIsController d = isController t
  /\ deviceIsPressureController d = isPressureController t
  /\ deviceIsLiquid d = isLiquid t.
Proof.
  intros Hd.
  unfold deviceIsMassFlow, deviceIsController, deviceIsPressureController,
    deviceIsLiquid.
  rewrite Hd. destruct t; repeat split; reflexivity.
Qed.

Lemma unknown_device_predicates (d : AlicatMODBUSRTU) :
  ~ 0 <= _deviceType d <= 4 ->
  deviceIsMassFlow d = false
  /\ deviceIsController d = false
  /\ deviceIsPressureController d = false
  /\ deviceIsLiquid d = false.
Proof.
  intros Hd.
  unfold deviceIsMassFlow, deviceIsController, deviceIsPressureController,
    deviceIsLiquid, DEVICE_TYPE_MASS_FLOW_METER, DEVICE_TYPE_MASS_FLOW_CONTROLLER,
    DEVICE_TYPE_PSID_CONTROLLER, DEVICE_TYPE_GAUGE_PRESSURE_CONTROLLER,
    DEVICE_TYPE_LIQUID_CONTROLLER.
  repeat split; repeat (apply orb_false_iff; split); lia.
Qed.

Lemma unknown_device_quiet (op : Operation) (d : AlicatMODBUSRTU) :
  ~ 0 <= _deviceType d <= 4 -> quiet T d (invoke op) (outputs op).
Proof.
  intros Hd. destruct (unknown_device_predicates d Hd) as (Hm & Hc & Hp & Hl).
  destruct op;
    unfold invoke, no_output, one_output, outputs;
    (eapply quiet_bind;
     [ unfold setSetpoint, getSetpoint, getFlowTemperature, getVolumetricFlow,
         getMassFlow, getMassTotal, getGasNumber, setGasNumber,
         setMixtureGasProperties, getMixtureGasProperties, changeGasNumber,
         createCustomGasMixture, deleteCustomGasMixture, readPIDValue, tare;
       cbv zeta;
       (eapply quiet_bind; [apply quiet_this |]); cbv beta;
       rewrite ?Hm, ?Hc, ?Hp, ?Hl; cbn [negb andb];
       try (destruct (u16 tareArgument =? 0), (u16 tareArgument =? 1),
              (u16 tareArgument =? 2); cbn [negb]);
       eauto 12 with quiet
     | apply quiet_ret ]).
Qed.

(** X2. The constructor accepts any integer as device type.  With a
    device type that is none of the five defined tags (0 to 4), every
    type-restricted operation is refused: it returns without any transport
    call and leaves its outputs as they were. *)
Theorem unknown_device_type_refuses_every_operation (op : Operation) (w : World T) :
  ~ 0 <= _deviceType (self w) <= 4 ->
  fst (invoke op w) = Done (outputs op)
  /\ calls (snd (invoke op w)) = calls w
  /\ modbus (snd (invoke op w)) = modbus w.
Proof.
  intros Hd.
  destruct (quiet_calls _ _ w (unknown_device_quiet op (self w) Hd))
    as (Hr & Hc & Hm & _).
  auto.
Qed.

(** ** The statistics behind the getters *)

Lemma one_output_calls (m : M T (val Z)) (w : World T) :
  calls (snd (one_output m w)) = calls (snd (m w))
  /\ serial (snd (one_output m w)) = serial (snd (m w)).
Proof.
  unfold one_output, bind. destruct (m w) as [[a |] w']; split; reflexivity.
Qed.

Lemma no_output_calls (m : M T unit) (w : World T) :
  calls (snd (no_output m w)) = calls (snd (m w)).
Proof. unfold no_output, bind. destruct (m w) as [[a |] w']; reflexivity. Qed.

Lemma one_output_ext (m m' : M T (val Z)) (w : World T) :
  m w = m' w -> one_output m w = one_output m' w.
Proof. intros E. unfold one_output, bind. rewrite E. reflexivity. Qed.

Lemma statistic_getter_run (t : DeviceType) (op : Operation) (k : Z) (w : World T) :
  _deviceType (self w) = device_type_tag t ->
  supported t op = true ->
  statistic_of t op = Some k ->
  exists v,
    outputs op = [v]
    /\ invoke op w
       = one_output
           (readRegistersAsFloat (REGISTER_DEVICE_STATISTIC_1_VALUE + 2 * (k - 1)) v) w.
Proof.
  intros Hd Hsup Hk.
  destruct (device_predicates _ t Hd) as (Hm & Hc & Hp & Hl).
  destruct op; try discriminate Hk; simpl in Hk; injection Hk as <-;
    simpl in Hsup; eexists; (split; [reflexivity |]);
    unfold invoke; apply one_output_ext;
    unfold getSetpoint, getFlowTemperature, getVolumetricFlow, getMassFlow,
      getMassTotal;
    unfold bind at 1; unfold this at 1; cbv beta iota zeta;
    rewrite ?Hm, ?Hc, ?Hp, ?Hl;
    destruct t; try discriminate Hsup;
    cbn [negb andb isMassFlow isController isPressureController isLiquid];
    unfold bind at 1; rewrite statistic_in_range by lia; reflexivity.
Qed.

(** X3. On each of the five device types, a float getter that the type
    supports issues exactly one transport call, a read of two registers at
    the register of its statistic plus the offset: statistic 2 for the flow
    temperature, 3 for the volumetric flow, 4 for the mass flow, 6 (on a
    controller) or 5 (on a meter) for the mass total, 5 (mass-flow
    controller) or 2 (pressure controllers) for the setpoint. *)
Theorem getter_reads_its_statistic
  (t : DeviceType) (op : Operation) (k : Z) (w : World T) :
  _deviceType (self w) = device_type_tag t ->
  supported t op = true ->
  statistic_of t op = Some k ->
  calls (snd (invoke op w))
  = calls w ++
    [ReadCall (_modbusID (self w))
       (offsetRegister (self w) (REGISTER_DEVICE_STATISTIC_1_VALUE + 2 * (k - 1))) 2].
Proof.
  intros Hd Hsup Hk.
  destruct (statistic_getter_run t op k w Hd Hsup Hk) as (v & _ & ->).
  rewrite (proj1 (one_output_calls _ w)), readRegistersAsFloat_run. cbv zeta.
  case_transport; reflexivity.
Qed.

(** ** Failed reads *)

(** X4. When the transport fails every read, each getter that is a single
    read (setpoint, flow temperature, volumetric flow, mass flow, mass
    total, gas number) returns with its output as it was, on every device
    type, and so does [getPressure]. *)
Theorem failed_read_leaves_getter_output
  (op : Operation) (pressure : val Z) (w : World T) :
  (forall id a n, fst (readHoldingRegisterValues (modbus w) id a n) = None) ->
  (single_read_getter op = true -> fst (invoke op w) = Done (outputs op))
  /\ fst (getPressure pressure w) = Done pressure.
Proof.
  intros Hfail. split.
  - intros Hop. apply getters_keep_output_on_failed_read; [| exact Hfail].
    destruct op; try discriminate Hop; exact I.
  - apply getPressure_keeps_output_on_failed_read, Hfail.
Qed.

(** X5. A failed read is reported on the serial sink whether [_verbose] is
    set or not, and the line names the documented register, not the address
    that went on the bus: a supported float getter whose read fails keeps
    its output and prints the error text followed by the register of its
    statistic. *)
Theorem failed_read_is_reported_without_verbose
  (t : DeviceType) (op : Operation) (k : Z) (bus : T) (w : World T) :
  _deviceType (self w) = device_type_tag t ->
  supported t op = true ->
  statistic_of t op = Some k ->
  readHoldingRegisterValues (modbus w) (_modbusID (self w))
    (offsetRegister (self w) (REGISTER_DEVICE_STATISTIC_1_VALUE + 2 * (k - 1))) 2
  = (None, bus) ->
  fst (invoke op w) = Done (outputs op)
  /\ serial (snd (invoke op w))
     = serial w ++
       [print_str "ERROR: Failed to read register: ";
        println_int (REGISTER_DEVICE_STATISTIC_1_VALUE + 2 * (k - 1))].
Proof.
  intros Hd Hsup Hk Hread.
  destruct (statistic_getter_run t op k w Hd Hsup Hk) as (v & -> & ->).
  rewrite (proj2 (one_output_calls _ w)).
  unfold one_output, bind. rewrite readRegistersAsFloat_run. cbv zeta.
  rewrite Hread. split; reflexivity.
Qed.

(** ** Operations that are one special command *)

Lemma sendSpecialCommand_then_ret_calls (command argument : Z) (w : World T) :
  calls (snd ((sendSpecialCommand command argument;; ret tt) w))
  = calls w ++
    [WriteCall (_modbusID (self w)) (offsetRegister (self w) REGISTER_COMMAND_ID)
       [u16 command; u16 argument];
     ReadCall (_modbusID (self w)) (offsetRegister (self w) REGISTER_COMMAND_ARGUMENT) 1].
Proof.
  rewrite <- sendSpecialCommand_calls. unfold bind.
  destruct (sendSpecialCommand command argument w) as [[b |] w']; reflexivity.
Qed.

(** X6. [changeGasNumber], [createCustomGasMixture], [deleteCustomGasMixture]
    and [tare], on a device type that supports them and with an argument
    in its domain, issue exactly two transport calls: the write of the
    command number and of the argument (as a 16-bit word) at the command
    register, then the read of one word at the argument register. *)
Theorem special_command_operation_calls
  (t : DeviceType) (op : Operation) (command argument : Z) (w : World T) :
  _deviceType (self w) = device_type_tag t ->
  supported t op = true ->
  argument_in_domain op = true ->
  command_of op = Some (command, argument) ->
  calls (snd (invoke op w))
  = calls w ++
    [WriteCall (_modbusID (self w)) (offsetRegister (self w) REGISTER_COMMAND_ID)
       [command; argument];
     ReadCall (_modbusID (self w)) (offsetRegister (self w) REGISTER_COMMAND_ARGUMENT) 1].
Proof.
  intros Hd Hsup Hdom Hcmd.
  destruct (device_predicates _ t Hd) as (Hm & Hc & Hp & Hl).
  destruct op; try discriminate Hcmd; simpl in Hcmd; injection Hcmd as <- <-;
    unfold invoke; rewrite no_output_calls;
    unfold changeGasNumber, createCustomGasMixture, deleteCustomGasMixture, tare;
    cbv zeta; unfold bind at 1; unfold this at 1; cbv beta iota;
    rewrite ?Hm, ?Hc, ?Hp, ?Hl; simpl in Hsup.
  - rewrite Hsup. cbn [negb]. rewrite sendSpecialCommand_then_ret_calls, u16_idem.
    reflexivity.
  - rewrite Hsup. cbn [negb]. simpl in Hdom.
    replace (negb (u16 gasMixtureIndex =? 0)
             && ((u16 gasMixtureIndex <? 236) || (u16 gasMixtureIndex >? 255)))
      with false by lia.
    rewrite sendSpecialCommand_then_ret_calls, u16_idem. reflexivity.
  - rewrite Hsup. cbn [negb]. rewrite sendSpecialCommand_then_ret_calls, u16_idem.
    reflexivity.
  - destruct (u16 tareArgument =? 0); [| destruct (u16 tareArgument =? 1)];
      [| | destruct (u16 tareArgument =? 2)]; cbn [orb] in Hsup;
      destruct t; try discriminate Hsup;
      cbn [isMassFlow isLiquid isPressureController negb andb];
      rewrite sendSpecialCommand_then_ret_calls, u16_idem; reflexivity.
Qed.

(** ** Arguments outside their domain *)

Lemma setGasNumber_out_of_domain (d : AlicatMODBUSRTU) (gasIndex : Z) :
  (u16 gasIndex <=? 210) = false -> quiet T d (setGasNumber gasIndex) tt.
Proof.
  intros Hdom. unfold setGasNumber. cbv zeta. eapply quiet_bind; [apply quiet_this |].
  cbv beta. destruct (deviceIsMassFlow d); cbn [negb]; [| eauto with quiet].
  replace ((u16 gasIndex <? 0) || (u16 gasIndex >? 210)) with true by lia.
  eauto with quiet.
Qed.

Lemma setMixtureGasProperties_out_of_domain
  (d : AlicatMODBUSRTU) (mixtureIndex gasIndex gasPercent : Z) :
  (1 <=? mixtureIndex) && (mixtureIndex <=? 5) && (u16 gasIndex <=? 210)
  && percent_accepted gasPercent = false ->
  quiet T d (setMixtureGasProperties mixtureIndex gasIndex gasPercent) tt.
Proof.
  intros Hdom. unfold setMixtureGasProperties. cbv zeta.
  eapply quiet_bind; [apply quiet_this |].
  cbv beta. destruct (deviceIsMassFlow d); cbn [negb]; [| eauto with quiet].
  destruct ((mixtureIndex <? 1) || (mixtureIndex >? 5)) eqn:E1; [eauto with quiet |].
  destruct ((u16 gasIndex <? 0) || (u16 gasIndex >? 210)) eqn:E2; [eauto with quiet |].
  unfold percent_accepted in Hdom.
  destruct (double_lt (to_double (float_of_bits gasPercent)) (double_of_Z 0)
            || double_lt (double_of_Z 100) (to_double (float_of_bits gasPercent)));
    [eauto with quiet |].
  exfalso. cbn [negb] in Hdom. lia.
Qed.

Lemma getMixtureGasProperties_out_of_domain
  (d : AlicatMODBUSRTU) (mixtureIndex : Z) (gasIndex gasPercent : val Z) :
  (1 <=? mixtureIndex) && (mixtureIndex <=? 5) = false ->
  quiet T d (getMixtureGasProperties mixtureIndex gasIndex gasPercent)
        (gasIndex, gasPercent).
Proof.
  intros Hdom. unfold getMixtureGasProperties.
  eapply quiet_bind; [apply quiet_this |].
  cbv beta. destruct (deviceIsMassFlow d); cbn [negb]; [| eauto with quiet].
  replace ((mixtureIndex <? 1) || (mixtureIndex >? 5)) with true by lia.
  eauto with quiet.
Qed.

Lemma createCustomGasMixture_out_of_domain (d : AlicatMODBUSRTU) (gasMixtureIndex : Z) :
  (u16 gasMixtureIndex =? 0)
  || ((236 <=? u16 gasMixtureIndex) && (u16 gasMixtureIndex <=? 255)) = false ->
  quiet T d (createCustomGasMixture gasMixtureIndex) tt.
Proof.
  intros Hdom. unfold createCustomGasMixture. cbv zeta.
  eapply quiet_bind; [apply quiet_this |].
  cbv beta. destruct (deviceIsMassFlow d); cbn [negb]; [| eauto with quiet].
  replace (negb (u16 gasMixtureIndex =? 0)
           && ((u16 gasMixtureIndex <? 236) || (u16 gasMixtureIndex >? 255)))
    with true by lia.
  eauto with quiet.
Qed.

Lemma readPIDValue_out_of_domain
  (d : AlicatMODBUSRTU) (coefficientID : Z) (coefficientValue : val Z) :
  (u16 coefficientID <=? 2) = false ->
  quiet T d (readPIDValue coefficientID coefficientValue) coefficientValue.
Proof.
  intros Hdom. unfold readPIDValue. cbv zeta. eapply quiet_bind; [apply quiet_this |].
  cbv beta. destruct (deviceIsController d); cbn [negb]; [| eauto with quiet].
  replace ((u16 coefficientID <? 0) || (u16 coefficientID >? 2)) with true by lia.
  eauto with quiet.
Qed.

Lemma out_of_domain_quiet (op : Operation) (d : AlicatMODBUSRTU) :
  argument_in_domain op = false -> quiet T d (invoke op) (outputs op).
Proof.
  intros Hdom.
  destruct op; try discriminate Hdom; simpl in Hdom;
    unfold invoke, no_output, one_output, outputs.
  - eapply quiet_bind; [apply setGasNumber_out_of_domain, Hdom | apply quiet_ret].
  - eapply quiet_bind;
      [apply setMixtureGasProperties_out_of_domain, Hdom | apply quiet_ret].
  - eapply quiet_bind;
      [apply getMixtureGasProperties_out_of_domain, Hdom | apply quiet_ret].
  - eapply quiet_bind;
      [apply createCustomGasMixture_out_of_domain, Hdom | apply quiet_ret].
  - eapply quiet_bind; [apply readPIDValue_out_of_domain, Hdom | apply quiet_ret].
Qed.

(** X7. An argument outside its domain stops the operation before the
    bus, on every device type: a gas number above 210, a mixture slot
    outside 1 to 5, a percentage below 0 or above 100, a custom mixture
    index that is neither 0 nor within 236 to 255, a PID coefficient above
    2.  No transport call is made and the outputs keep their contents.  An
    argument of type [uint16_t] is judged after its conversion, so that -1
    is 65535. *)
Theorem argument_out_of_domain_makes_no_call (op : Operation) (w : World T) :
  argument_in_domain op = false ->
  fst (invoke op w) = Done (outputs op)
  /\ calls (snd (invoke op w)) = calls w
  /\ modbus (snd (invoke op w)) = modbus w.
Proof.
  intros Hdom.
  destruct (quiet_calls _ _ w (out_of_domain_quiet op (self w) Hdom))
    as (Hr & Hc & Hm & _).
  auto.
Qed.

(** ** The gas number *)

(** X8. On a mass-flow device, [setGasNumber] with a gas number up to 210
    writes that one word at [REGISTER_GAS_NUMBER] plus the offset, and
    [getGasNumber] reads one word at the same address and stores the word
    the transport answers in its output: the getter reads the register the
    setter writes. *)
Theorem gas_number_set_and_get_share_a_register
  (gasIndex word : Z) (rest : list Z) (out : val Z) (bus : T) (w w' : World T) :
  deviceIsMassFlow (self w) = true ->
  deviceIsMassFlow (self w') = true ->
  0 <= gasIndex <= 210 ->
  readHoldingRegisterValues (modbus w') (_modbusID (self w'))
    (offsetRegister (self w') REGISTER_GAS_NUMBER) 1 = (Some (word :: rest), bus) ->
  calls (snd (setGasNumber gasIndex w))
  = calls w ++ [WriteCall (_modbusID (self w))
                  (offsetRegister (self w) REGISTER_GAS_NUMBER) [gasIndex]]
  /\ calls (snd (getGasNumber out w'))
     = calls w' ++ [ReadCall (_modbusID (self w'))
                      (offsetRegister (self w') REGISTER_GAS_NUMBER) 1]
  /\ fst (getGasNumber out w') = Done (Vdef (u16 word)).
Proof.
  intros Hm Hm' Hg Hread.
  assert (u16 gasIndex = gasIndex) as Hg16 by (apply u16_id; lia).
  split; [| split].
  - unfold setGasNumber. cbv zeta. rewrite Hg16.
    unfold bind at 1. unfold this at 1. cbv beta iota. rewrite Hm. cbn [negb].
    replace ((gasIndex <? 0) || (gasIndex >? 210)) with false by lia.
    rewrite writeSingleRegister_run. cbv zeta. rewrite Hg16.
    case_transport. reflexivity.
  - unfold getGasNumber. unfold bind at 1. unfold this at 1. cbv beta iota.
    rewrite Hm'. cbn [negb]. rewrite readSingleRegister_run. cbv zeta.
    rewrite Hread. reflexivity.
  - unfold getGasNumber. unfold bind at 1. unfold this at 1. cbv beta iota.
    rewrite Hm'. cbn [negb]. rewrite readSingleRegister_run. cbv zeta.
    rewrite Hread. reflexivity.
Qed.

(** ** A special command whose status cannot be read *)

(** X9. [sendSpecialCommand] does not look at the result of its write and
    does not notice a failed read: when the read of the status fails, both
    transport calls have been made and the status that is classified is a
    local that was never assigned, so the boolean it returns is not
    defined. *)
Theorem special_command_status_unassigned_on_failed_read
  (command argument : Z) (ack : bool) (bus1 bus2 : T) (w : World T) :
  writeHoldingRegisterValues (modbus w) (_modbusID (self w))
    (offsetRegister (self w) REGISTER_COMMAND_ID) [u16 command; u16 argument]
  = (ack, bus1) ->
  readHoldingRegisterValues bus1 (_modbusID (self w))
    (offsetRegister (self w) REGISTER_COMMAND_ARGUMENT) 1 = (None, bus2) ->
  fst (sendSpecialCommand command argument w) = Undefined
  /\ calls (snd (sendSpecialCommand command argument w))
     = calls w ++
       [WriteCall (_modbusID (self w)) (offsetRegister (self w) REGISTER_COMMAND_ID)
          [u16 command; u16 argument];
        ReadCall (_modbusID (self w))
          (offsetRegister (self w) REGISTER_COMMAND_ARGUMENT) 1].
Proof.
  intros Hwrite Hread. split; [| apply sendSpecialCommand_calls].
  pose proof (sendSpecialCommand_result command argument w) as E.
  cbv zeta in E. rewrite Hwrite in E. cbn [snd] in E. rewrite Hread in E.
  exact E.
Qed.

(** ** The footprint of the status decoding *)

Lemma Forall_False_nil {A : Type} (l : list A) : Forall (fun _ => False) l -> l = [].
Proof. intros Hl. destruct l as [| a l]; [reflexivity |]. inversion Hl. contradiction. Qed.

Lemma confined_nothing {A : Type} d (m : M T A) (w : World T) :
  confined T d (fun _ => False) m -> self w = d ->
  self (snd (m w)) = d /\ calls (snd (m w)) = calls w.
Proof.
  intros Hm Hw. destruct (Hm w Hw) as (Hs & new & Hc & Hnew).
  rewrite (Forall_False_nil _ Hnew), app_nil_r in Hc. auto.
Qed.

Lemma getStatusFlags_shape (w : World T) :
  exists r st bus out,
    getStatusFlags w
    = (r, Build_World
            (Build_AlicatMODBUSRTU (_verbose (self w)) (_registerOffset (self w))
               (_modbusID (self w)) (_deviceType (self w)) st)
            bus
            (calls w ++ [ReadCall (_modbusID (self w))
                           (offsetRegister (self w) REGISTER_DEVICE_STATUS) 1])
            out)
    /\ (fst (readHoldingRegisterValues (modbus w) (_modbusID (self w))
               (offsetRegister (self w) REGISTER_DEVICE_STATUS) 1) = None ->
        st = uninitialised_status
        /\ r = (if _verbose (self w) then Undefined else Done tt)).
Proof.
  unfold getStatusFlags. cbv zeta.
  unfold bind at 1. rewrite readSingleRegister_run. cbv zeta.
  case_transport; cbv beta iota;
    (unfold bind at 1; unfold this at 1; cbn [self modbus calls serial];
     unfold bind at 1; unfold set_self at 1; cbn [self modbus calls serial]).
  - destruct (_verbose (self w)).
    + match goal with
      | |- context [?m ?w1 = _] =>
          assert (confined T (self w1) (fun _ => False) m) as Hm
            by (unfold report_flag; confine);
          destruct (confined_nothing _ m w1 Hm eq_refl) as [Hs Hc];
          destruct (m w1) as [r [d2 bus2 log2 out2]]
      end.
      cbn [snd self calls] in Hs, Hc. subst d2 log2.
      do 4 eexists. split; [reflexivity |]. intros E. discriminate E.
    + do 4 eexists. split; [reflexivity |]. intros E. discriminate E.
  - destruct (_verbose (self w)).
    + do 4 eexists. split; [reflexivity |]. intros _. split; reflexivity.
    + do 4 eexists. split; [reflexivity |]. intros _. split; reflexivity.
Qed.

(** X10. [getStatusFlags] issues exactly one transport call, the read of
    one word at [REGISTER_DEVICE_STATUS] plus the offset, and never changes
    the configuration of the object (verbosity, offset, Modbus id, device
    type).  When that read fails it still assigns the 15 flags, from a
    local that was never assigned: the flags decoded before are lost, and
    with [_verbose] set the undefined word is also printed. *)
Theorem status_decoding_footprint (w : World T) :
  calls (snd (getStatusFlags w))
  = calls w ++ [ReadCall (_modbusID (self w))
                  (offsetRegister (self w) REGISTER_DEVICE_STATUS) 1]
  /\ _verbose (self (snd (getStatusFlags w))) = _verbose (self w)
  /\ _registerOffset (self (snd (getStatusFlags w))) = _registerOffset (self w)
  /\ _modbusID (self (snd (getStatusFlags w))) = _modbusID (self w)
  /\ _deviceType (self (snd (getStatusFlags w))) = _deviceType (self w)
  /\ (fst (readHoldingRegisterValues (modbus w) (_modbusID (self w))
             (offsetRegister (self w) REGISTER_DEVICE_STATUS) 1) = None ->
      _status (self (snd (getStatusFlags w))) = uninitialised_status
      /\ fst (getStatusFlags w) = (if _verbose (self w) then Undefined else Done tt)).
Proof.
  destruct (getStatusFlags_shape w) as (r & st & bus & out & -> & Hfail).
  cbn [fst snd self calls _verbose _registerOffset _modbusID _deviceType _status].
  repeat (split; [reflexivity |]). exact Hfail.
Qed.

(** ** Words into floats and back *)

Lemma join_high (hi lo : Z) :
  0 <= lo < 65536 -> Z.shiftr (Z.lor (Z.shiftl hi 16) lo) 16 = hi.
Proof.
  intros Hlo. rewrite Z.shiftr_lor, Z.shiftr_shiftl_l by lia.
  rewrite (Z.shiftr_div_pow2 lo) by lia. change (2 ^ 16) with 65536.
  rewrite (Z.div_small lo) by lia. rewrite Z.lor_0_r. reflexivity.
Qed.

Lemma join_low (hi lo : Z) :
  0 <= lo < 65536 -> Z.land (Z.lor (Z.shiftl hi 16) lo) 0xFFFF = lo.
Proof.
  intros Hlo. change 0xFFFF with (Z.ones 16).
  rewrite Z.land_lor_distr_l, !Z.land_ones, Z.shiftl_mul_pow2 by lia.
  rewrite Z.mod_mul by lia. change (2 ^ 16) with 65536.
  rewrite Z.mod_small by lia. reflexivity.
Qed.

Lemma join_range (hi lo : Z) :
  0 <= hi < 65536 -> 0 <= lo < 65536 ->
  Z.lor (Z.shiftl hi 16) lo = hi * 65536 + lo.
Proof.
  intros Hhi Hlo.
  pose proof (Z.div_mod (Z.lor (Z.shiftl hi 16) lo) 65536 ltac:(lia)) as E.
  change 65536 with (2 ^ 16) in E at 2 3.
  rewrite <- Z.shiftr_div_pow2, <- Z.land_ones in E by lia.
  change (Z.ones 16) with 0xFFFF in E.
  rewrite join_high, join_low in E by assumption. lia.
Qed.

(** X11. Any two 16-bit words the transport answers are assembled by
    [readRegistersAsFloat] into the 32-bit pattern [hi * 65536 + lo], and
    [writeRegistersAsFloat] of that pattern emits the same two words in the
    same order: no pair of register words is changed by being read and
    written back. *)
Theorem register_words_survive_read_then_write
  (hi lo registerAddress registerAddress' : Z) (floatValue : val Z) (bus : T)
  (w w' : World T) :
  0 <= hi < 65536 ->
  0 <= lo < 65536 ->
  readHoldingRegisterValues (modbus w) (_modbusID (self w))
    (offsetRegister (self w) registerAddress) 2 = (Some [hi; lo], bus) ->
  fst (readRegistersAsFloat registerAddress floatValue w) = Done (Vdef (hi * 65536 + lo))
  /\ 0 <= hi * 65536 + lo < 2 ^ 32
  /\ calls (snd (writeRegistersAsFloat registerAddress' (hi * 65536 + lo) w'))
     = calls w' ++
       [WriteCall (_modbusID (self w')) (offsetRegister (self w') registerAddress')
          [hi; lo]].
Proof.
  intros Hhi Hlo Hread. split; [| split].
  - rewrite readRegistersAsFloat_run. cbv zeta. rewrite Hread.
    unfold response_at. cbn [lookup list_lookup fst].
    rewrite !u16_id by assumption. unfold asFloat_of_asBytes.
    cbn [insert list_insert]. rewrite join_range by assumption. reflexivity.
  - change (2 ^ 32) with (65536 * 65536). nia.
  - rewrite writeRegistersAsFloat_run. cbv zeta.
    rewrite <- join_range by assumption.
    rewrite join_high, join_low by assumption.
    change 0xFFFF with (Z.ones 16). rewrite Z.land_ones by lia.
    change (2 ^ 16) with 65536. rewrite Z.mod_small by lia.
    case_transport. reflexivity.
Qed.

(** ** Configuring the object *)

(** X12. [setRegisterOffset] and [setModbusID] call nothing on the bus and
    change one data member each; the next register access uses the new
    values, so that after both a read of register [a] goes to the device
    [id] at the [int] sum of [a] and [o], which is [a + o] whenever that
    lies within the range of [int] and wraps around otherwise.  A new
    object has the offset -1: its first read of register [a] goes to the
    [int] sum of [a] and -1, which is [a - 1] within the range of [int]. *)
Theorem configuration_setters_take_effect
  (o id a : Z) (v : val Z) (deviceType : Z) (verbose : bool) (bus : T) (w : World T) :
  setRegisterOffset o w
  = (Done tt,
     Build_World
       (Build_AlicatMODBUSRTU (_verbose (self w)) o (_modbusID (self w))
          (_deviceType (self w)) (_status (self w)))
       (modbus w) (calls w) (serial w))
  /\ setModbusID id w
     = (Done tt,
        Build_World
          (Build_AlicatMODBUSRTU (_verbose (self w)) (_registerOffset (self w)) id
             (_deviceType (self w)) (_status (self w)))
          (modbus w) (calls w) (serial w))
  /\ calls (snd ((setRegisterOffset o;; setModbusID id;; readSingleRegister a v) w))
     = calls w ++ [ReadCall id (int_add a o) 1]
  /\ (INT_MIN <= a + o <= INT_MAX ->
      calls (snd ((setRegisterOffset o;; setModbusID id;; readSingleRegister a v) w))
      = calls w ++ [ReadCall id (a + o) 1])
  /\ calls (snd (readSingleRegister a v (power_on (constructor id deviceType verbose) bus)))
     = [ReadCall id (int_add a (-1)) 1]
  /\ (INT_MIN <= a - 1 <= INT_MAX ->
      calls (snd (readSingleRegister a v
                    (power_on (constructor id deviceType verbose) bus)))
      = [ReadCall id (a - 1) 1]).
Proof.
  assert (calls (snd ((setRegisterOffset o;; setModbusID id;;
                       readSingleRegister a v) w))
          = calls w ++ [ReadCall id (int_add a o) 1]) as Hboth.
  { unfold bind at 1. unfold setRegisterOffset at 1.
    unfold bind at 1, this at 1, set_self at 1.
    cbv beta iota. unfold bind at 1. unfold setModbusID at 1.
    unfold bind at 1, this at 1, set_self at 1. cbv beta iota.
    rewrite readSingleRegister_run. cbv zeta. cbn [self modbus calls serial _modbusID].
    unfold offsetRegister. cbn [_registerOffset].
    case_transport; reflexivity. }
  assert (calls (snd (readSingleRegister a v
                        (power_on (constructor id deviceType verbose) bus)))
          = [ReadCall id (int_add a (-1)) 1]) as Hnew.
  { rewrite readSingleRegister_run. cbv zeta.
    cbn [power_on constructor self modbus calls serial _modbusID].
    unfold offsetRegister. cbn [_registerOffset].
    case_transport; reflexivity. }
  split; [reflexivity |]. split; [reflexivity |].
  split; [exact Hboth |].
  split; [intros Hr; rewrite Hboth; unfold int_add;
          rewrite (int_wrap_in_range _ Hr); reflexivity |].
  split; [exact Hnew |].
  intros Hr. rewrite Hnew. unfold int_add.
  replace (a + -1) with (a - 1) by lia.
  rewrite (int_wrap_in_range _ Hr). reflexivity.
Qed.

(** ** Gas mixture slots *)

Lemma percent_words_stable_upto_10000 :
  forallb percent_word_stable (seqZ 0 10001) = true.
Proof. vm_compute. reflexivity. Qed.

Lemma percent_word_stable_in_range (n : Z) :
  0 <= n <= 10000 ->
  percent_accepted (word_percent n) = true
  /\ percent_word (word_percent n) = Vdef n.
Proof.
  intros Hn.
  pose proof (proj1 (forallb_forall _ _) percent_words_stable_upto_10000 n) as Hs.
  assert (In n (seqZ 0 10001)) as Hin
    by (apply list_elem_of_In, elem_of_seqZ; lia).
  specialize (Hs Hin). unfold percent_word_stable in Hs.
  apply andb_true_iff in Hs. destruct Hs as [Ha Hw]. split; [exact Ha |].
  destruct (percent_word (word_percent n)) as [| m]; [discriminate Hw |].
  apply Z.eqb_eq in Hw. subst m. reflexivity.
Qed.

Lemma percent_accepted_comparisons (gasPercent : Z) :
  percent_accepted gasPercent = true ->
  double_lt (to_double (float_of_bits gasPercent)) (double_of_Z 0) = false
  /\ double_lt (double_of_Z 100) (to_double (float_of_bits gasPercent)) = false.
Proof.
  unfold percent_accepted. intros Ha. apply negb_true_iff, orb_false_iff in Ha.
  exact Ha.
Qed.

(** X13. For every mixture slot of a mass-flow device, with arguments in
    their domains, [setMixtureGasProperties] issues exactly two writes of
    one word, the gas index at [REGISTER_MIXTURE_GAS_1_INDEX + 2 * (slot - 1)]
    and the percentage times 100, rounded, at the next register, while
    [getMixtureGasProperties] issues exactly two reads of one word, at
    [REGISTER_MIXTURE_GAS_1_INDEX + (slot - 1)] and at the next register
    (all plus the offset). *)
Theorem mixture_slot_registers
  (mixtureIndex gasIndex gasPercent word : Z) (index percent : val Z) (w : World T) :
  deviceIsMassFlow (self w) = true ->
  1 <= mixtureIndex <= 5 ->
  0 <= gasIndex <= 210 ->
  percent_accepted gasPercent = true ->
  percent_word gasPercent = Vdef word ->
  calls (snd (setMixtureGasProperties mixtureIndex gasIndex gasPercent w))
  = calls w ++
    [WriteCall (_modbusID (self w))
       (offsetRegister (self w) (REGISTER_MIXTURE_GAS_1_INDEX + 2 * (mixtureIndex - 1)))
       [gasIndex];
     WriteCall (_modbusID (self w))
       (offsetRegister (self w) (REGISTER_MIXTURE_GAS_1_INDEX + 2 * (mixtureIndex - 1) + 1))
       [u16 word]]
  /\ calls (snd (getMixtureGasProperties mixtureIndex index percent w))
     = calls w ++
       [ReadCall (_modbusID (self w))
          (offsetRegister (self w) (REGISTER_MIXTURE_GAS_1_INDEX + (mixtureIndex - 1))) 1;
        ReadCall (_modbusID (self w))
          (offsetRegister (self w) (REGISTER_MIXTURE_GAS_1_INDEX + (mixtureIndex - 1) + 1))
          1].
Proof.
  intros Hm Hi Hg Ha Hw.
  destruct (percent_accepted_comparisons _ Ha) as [Hlo Hhi]. split.
  - apply setMixtureGasProperties_calls; assumption.
  - apply getMixtureGasProperties_calls; assumption.
Qed.

Lemma getMixtureGasProperties_result
  (mixtureIndex g n : Z) (rest rest' : list Z) (index percent : val Z)
  (bus1 bus2 : T) (w : World T) :
  deviceIsMassFlow (self w) = true ->
  1 <= mixtureIndex <= 5 ->
  readHoldingRegisterValues (modbus w) (_modbusID (self w))
    (offsetRegister (self w) (REGISTER_MIXTURE_GAS_1_INDEX + (mixtureIndex - 1))) 1
  = (Some (g :: rest), bus1) ->
  readHoldingRegisterValues bus1 (_modbusID (self w))
    (offsetRegister (self w) (REGISTER_MIXTURE_GAS_1_INDEX + (mixtureIndex - 1) + 1)) 1
  = (Some (n :: rest'), bus2) ->
  fst (getMixtureGasProperties mixtureIndex index percent w)
  = Done (Vdef (u16 g), Vdef (word_percent (u16 n))).
Proof.
  intros Hm Hi Hread1 Hread2. unfold getMixtureGasProperties.
  unfold bind at 1. unfold this at 1. cbv beta iota zeta. rewrite Hm. cbn [negb].
  replace ((mixtureIndex <? 1) || (mixtureIndex >? 5)) with false by lia.
  unfold bind at 1. rewrite readSingleRegister_run. cbv zeta.
  rewrite Hread1. cbv beta iota.
  unfold bind at 1. rewrite readSingleRegister_run. cbv zeta.
  cbn [self modbus calls serial]. rewrite Hread2. reflexivity.
Qed.

(** X14. A gas index up to 210 and a percentage word up to 10000 (0.00 to
    100.00 percent) that [getMixtureGasProperties] reads from the transport
    come back as a gas index and a float percentage that
    [setMixtureGasProperties] accepts and writes as the same two words: the
    division by 100 on the way in and the multiplication by 100 with
    rounding on the way out never change a percentage word. *)
Theorem mixture_words_survive_read_then_write
  (slot slot' g n : Z) (index percent : val Z) (bus1 bus2 : T) (w w' : World T) :
  deviceIsMassFlow (self w) = true ->
  deviceIsMassFlow (self w') = true ->
  1 <= slot <= 5 ->
  1 <= slot' <= 5 ->
  0 <= g <= 210 ->
  0 <= n <= 10000 ->
  readHoldingRegisterValues (modbus w) (_modbusID (self w))
    (offsetRegister (self w) (REGISTER_MIXTURE_GAS_1_INDEX + (slot - 1))) 1
  = (Some [g], bus1) ->
  readHoldingRegisterValues bus1 (_modbusID (self w))
    (offsetRegister (self w) (REGISTER_MIXTURE_GAS_1_INDEX + (slot - 1) + 1)) 1
  = (Some [n], bus2) ->
  fst (getMixtureGasProperties slot index percent w)
  = Done (Vdef g, Vdef (word_percent n))
  /\ calls (snd (setMixtureGasProperties slot' g (word_percent n) w'))
     = calls w' ++
       [WriteCall (_modbusID (self w'))
          (offsetRegister (self w') (REGISTER_MIXTURE_GAS_1_INDEX + 2 * (slot' - 1)))
          [g];
        WriteCall (_modbusID (self w'))
          (offsetRegister (self w') (REGISTER_MIXTURE_GAS_1_INDEX + 2 * (slot' - 1) + 1))
          [n]].
Proof.
  intros Hm Hm' Hs Hs' Hg Hn Hread1 Hread2.
  destruct (percent_word_stable_in_range n Hn) as [Ha Hw].
  destruct (percent_accepted_comparisons _ Ha) as [Hlo Hhi]. split.
  - rewrite (getMixtureGasProperties_result slot g n [] [] index percent bus1 bus2 w)
      by assumption.
    rewrite !u16_id by lia. reflexivity.
  - rewrite (setMixtureGasProperties_calls slot' g (word_percent n) n w')
      by assumption.
    rewrite (u16_id n) by lia. reflexivity.
Qed.

(** X15. A NaN passes the range check of [setMixtureGasProperties], since
    both comparisons with a NaN are false.  On a mass-flow device, with the
    other arguments in their domains, the operation therefore reaches the
    bus: the gas index is written to its register, and the word for the
    percentage register then comes from a conversion of NaN to [uint16_t],
    which has no defined result. *)
Theorem nan_percent_passes_the_range_check
  (mixtureIndex gasIndex gasPercent : Z) (w : World T) :
  deviceIsMassFlow (self w) = true ->
  1 <= mixtureIndex <= 5 ->
  0 <= gasIndex <= 210 ->
  float_of_bits gasPercent = S754_nan ->
  percent_accepted gasPercent = true
  /\ percent_word gasPercent = Vundef
  /\ exists later,
       calls (snd (setMixtureGasProperties mixtureIndex gasIndex gasPercent w))
       = calls w ++
         WriteCall (_modbusID (self w))
           (offsetRegister (self w)
              (REGISTER_MIXTURE_GAS_1_INDEX + 2 * (mixtureIndex - 1)))
           [gasIndex]
         :: later.
Proof.
  intros Hm Hi Hg Hnan.
  assert (percent_accepted gasPercent = true) as Ha
    by (unfold percent_accepted; rewrite Hnan; reflexivity).
  split; [exact Ha |].
  split; [unfold percent_word; rewrite Hnan; reflexivity |].
  destruct (percent_accepted_comparisons _ Ha) as [Hlo Hhi].
  assert (u16 gasIndex = gasIndex) as Hg16 by (apply u16_id; lia).
  assert (exists bus,
            setMixtureGasProperties mixtureIndex gasIndex gasPercent w
            = (Undefined,
               Build_World (self w) bus
                 (calls w ++
                  [WriteCall (_modbusID (self w))
                     (offsetRegister (self w)
                        (REGISTER_MIXTURE_GAS_1_INDEX + 2 * (mixtureIndex - 1)))
                     [gasIndex]])
                 (serial w))) as [bus ->].
  { unfold setMixtureGasProperties. cbv zeta. rewrite Hg16.
    unfold bind at 1. unfold this at 1. cbv beta iota. rewrite Hm. cbn [negb].
    replace ((mixtureIndex <? 1) || (mixtureIndex >? 5)) with false by lia.
    replace ((gasIndex <? 0) || (gasIndex >? 210)) with false by lia.
    rewrite Hlo, Hhi. cbn [orb].
    unfold bind at 1. rewrite writeSingleRegister_run. cbv zeta. rewrite Hg16.
    case_transport. rewrite Hnan.
    change (uint16_of_rounded
              (round (double_mul (to_double S754_nan) (double_of_Z 100))))
      with (@Vundef Z).
    eexists. reflexivity. }
  exists []. reflexivity.
Qed.

(** ** The pressure *)

(** X16. [getPressure] has no gate: on every device type, defined or not,
    it issues exactly one transport call, the read of two registers at
    [REGISTER_DEVICE_STATISTIC_1_VALUE] plus the offset, and returns what
    [readRegistersAsFloat] makes of the answer. *)
Theorem getPressure_on_every_device_type (pressure : val Z) (w : World T) :
  getPressure pressure w
  = readRegistersAsFloat REGISTER_DEVICE_STATISTIC_1_VALUE pressure w
  /\ calls (snd (getPressure pressure w))
     = calls w ++
       [ReadCall (_modbusID (self w))
          (offsetRegister (self w) REGISTER_DEVICE_STATISTIC_1_VALUE) 2].
Proof.
  assert (getPressure pressure w
          = readRegistersAsFloat REGISTER_DEVICE_STATISTIC_1_VALUE pressure w) as E.
  { unfold getPressure. cbv zeta. unfold bind at 1.
    rewrite statistic_in_range by lia. reflexivity. }
  split; [exact E |]. rewrite E, readRegistersAsFloat_run. cbv zeta.
  case_transport; reflexivity.
Qed.

End Further.

(** ** The further properties at concrete inputs *)

Lemma unknown_device_type_refuses_every_operation_witness :
  ~ 0 <= _deviceType (self untyped_device_on_bank) <= 4
  /\ fst (invoke (GetMassFlow (Vdef float_50)) untyped_device_on_bank)
     = Done [Vdef float_50]
  /\ calls (snd (invoke (GetMassFlow (Vdef float_50)) untyped_device_on_bank)) = [].
Proof.
  assert (~ 0 <= _deviceType (self untyped_device_on_bank) <= 4) as Hd
    by (simpl; lia).
  split; [exact Hd |].
  destruct (unknown_device_type_refuses_every_operation
              (GetMassFlow (Vdef float_50)) untyped_device_on_bank Hd)
    as (Hr & Hc & _).
  split; [exact Hr | exact Hc].
Defined.

Lemma getter_reads_its_statistic_witness :
  _deviceType (self psid_controller_on_bank) = device_type_tag PSIDController
  /\ supported PSIDController (GetSetpoint Vundef) = true
  /\ statistic_of PSIDController (GetSetpoint Vundef) = Some 2
  /\ calls (snd (invoke (GetSetpoint Vundef) psid_controller_on_bank))
     = [ReadCall 1 1204 2].
Proof.
  do 3 (split; [reflexivity |]).
  apply (getter_reads_its_statistic PSIDController (GetSetpoint Vundef) 2
           psid_controller_on_bank); reflexivity.
Defined.

Lemma failed_read_leaves_getter_output_witness :
  (forall id a n,
     fst (readHoldingRegisterValues (modbus mass_flow_meter_on_dead_bus) id a n) = None)
  /\ fst (invoke (GetMassFlow (Vdef float_50)) mass_flow_meter_on_dead_bus)
     = Done [Vdef float_50]
  /\ fst (getPressure (Vdef float_12_5) mass_flow_meter_on_dead_bus)
     = Done (Vdef float_12_5).
Proof.
  assert (forall id a n,
            fst (readHoldingRegisterValues (modbus mass_flow_meter_on_dead_bus) id a n)
            = None) as Hfail by (intros; reflexivity).
  split; [exact Hfail |].
  destruct (failed_read_leaves_getter_output (GetMassFlow (Vdef float_50))
              (Vdef float_12_5) mass_flow_meter_on_dead_bus Hfail) as [Hg Hp].
  split; [apply Hg; reflexivity | exact Hp].
Defined.

Lemma failed_read_is_reported_without_verbose_witness :
  _verbose (self mass_flow_meter_on_dead_bus) = false
  /\ supported MassFlowMeter (GetMassFlow (Vdef float_50)) = true
  /\ serial (snd (invoke (GetMassFlow (Vdef float_50)) mass_flow_meter_on_dead_bus))
     = [print_str "ERROR: Failed to read register: "; println_int 1209].
Proof.
  do 2 (split; [reflexivity |]).
  destruct (failed_read_is_reported_without_verbose MassFlowMeter
              (GetMassFlow (Vdef float_50)) 4 [] mass_flow_meter_on_dead_bus)
    as [_ Hs]; [reflexivity .. | exact Hs].
Defined.

Lemma special_command_operation_calls_witness :
  supported MassFlowController (Tare 2) = true
  /\ argument_in_domain (Tare 2) = true
  /\ command_of (Tare 2) = Some (SPECIAL_COMMAND_TARE, 2)
  /\ calls (snd (invoke (Tare 2) mass_flow_controller_on_bank))
     = [WriteCall 1 999 [4; 2]; ReadCall 1 1000 1].
Proof.
  do 3 (split; [reflexivity |]).
  apply (special_command_operation_calls MassFlowController (Tare 2)
           SPECIAL_COMMAND_TARE 2 mass_flow_controller_on_bank); reflexivity.
Defined.

Lemma argument_out_of_domain_makes_no_call_witness :
  deviceIsMassFlow (self mass_flow_controller_on_bank) = true
  /\ argument_in_domain (SetGasNumber 211) = false
  /\ argument_in_domain (SetGasNumber (-1)) = false
  /\ calls (snd (invoke (SetGasNumber 211) mass_flow_controller_on_bank)) = []
  /\ calls (snd (invoke (SetGasNumber (-1)) mass_flow_controller_on_bank)) = [].
Proof.
  do 3 (split; [reflexivity |]). split.
  - destruct (argument_out_of_domain_makes_no_call (SetGasNumber 211)
                mass_flow_controller_on_bank) as (_ & Hc & _);
      [reflexivity | exact Hc].
  - destruct (argument_out_of_domain_makes_no_call (SetGasNumber (-1))
                mass_flow_controller_on_bank) as (_ & Hc & _);
      [reflexivity | exact Hc].
Defined.

Lemma gas_number_set_and_get_share_a_register_witness :
  deviceIsMassFlow (self meter_with_mixture_words) = true
  /\ 0 <= 47 <= 210
  /\ calls (snd (setGasNumber 47 meter_with_mixture_words)) = [WriteCall 1 1199 [47]]
  /\ calls (snd (getGasNumber Vundef meter_with_mixture_words)) = [ReadCall 1 1199 1]
  /\ fst (getGasNumber Vundef meter_with_mixture_words) = Done (Vdef 47).
Proof.
  assert (0 <= 47 <= 210) as Hg by lia.
  split; [reflexivity |]. split; [exact Hg |].
  apply (gas_number_set_and_get_share_a_register 47 47 [] Vundef [Some [5000]]
           meter_with_mixture_words meter_with_mixture_words);
    [reflexivity | reflexivity | exact Hg | reflexivity].
Defined.

Lemma special_command_status_unassigned_on_failed_read_witness :
  fst (readHoldingRegisterValues (modbus mass_flow_meter_on_dead_bus) 1 1000 1) = None
  /\ fst (sendSpecialCommand SPECIAL_COMMAND_TARE 2 mass_flow_meter_on_dead_bus)
     = Undefined
  /\ calls (snd (sendSpecialCommand SPECIAL_COMMAND_TARE 2 mass_flow_meter_on_dead_bus))
     = [WriteCall 1 999 [4; 2]; ReadCall 1 1000 1].
Proof.
  split; [reflexivity |].
  apply (special_command_status_unassigned_on_failed_read SPECIAL_COMMAND_TARE 2
           true [] [] mass_flow_meter_on_dead_bus); reflexivity.
Defined.

Lemma register_words_survive_read_then_write_witness :
  0 <= 0x4248 < 65536
  /\ 0 <= 0 < 65536
  /\ fst (readRegistersAsFloat 1205 Vundef controller_with_float_words)
     = Done (Vdef float_50)
  /\ calls (snd (writeRegistersAsFloat REGISTER_SETPOINT float_50
                   controller_with_float_words))
     = [WriteCall 1 1009 [0x4248; 0]].
Proof.
  assert (0 <= 0x4248 < 65536) as Hhi by lia.
  assert (0 <= 0 < 65536) as Hlo by lia.
  split; [exact Hhi |]. split; [exact Hlo |].
  destruct (register_words_survive_read_then_write 0x4248 0 1205 REGISTER_SETPOINT
              Vundef [] controller_with_float_words controller_with_float_words
              Hhi Hlo) as (Hr & _ & Hw); [reflexivity |].
  split; [exact Hr | exact Hw].
Defined.

Lemma mixture_slot_registers_witness :
  deviceIsMassFlow (self mass_flow_controller_on_bank) = true
  /\ percent_accepted float_50 = true
  /\ percent_word float_50 = Vdef 5000
  /\ calls (snd (setMixtureGasProperties 2 47 float_50 mass_flow_controller_on_bank))
     = [WriteCall 1 1051 [47]; WriteCall 1 1052 [5000]]
  /\ calls (snd (getMixtureGasProperties 2 Vundef Vundef mass_flow_controller_on_bank))
     = [ReadCall 1 1050 1; ReadCall 1 1051 1].
Proof.
  do 3 (split; [reflexivity |]).
  assert (1 <= 2 <= 5) as Hi by lia.
  assert (0 <= 47 <= 210) as Hg by lia.
  apply (mixture_slot_registers 2 47 float_50 5000 Vundef Vundef
           mass_flow_controller_on_bank);
    [reflexivity | exact Hi | exact Hg | reflexivity | reflexivity].
Defined.

Lemma mixture_words_survive_read_then_write_witness :
  deviceIsMassFlow (self meter_with_mixture_words) = true
  /\ 0 <= 47 <= 210
  /\ 0 <= 5000 <= 10000
  /\ fst (getMixtureGasProperties 1 Vundef Vundef meter_with_mixture_words)
     = Done (Vdef 47, Vdef float_50)
  /\ calls (snd (setMixtureGasProperties 1 47 float_50 mass_flow_meter_on_dead_bus))
     = [WriteCall 1 1049 [47]; WriteCall 1 1050 [5000]].
Proof.
  assert (1 <= 1 <= 5) as Hs by lia.
  assert (0 <= 47 <= 210) as Hg by lia.
  assert (0 <= 5000 <= 10000) as Hn by lia.
  split; [reflexivity |]. split; [exact Hg |]. split; [exact Hn |].
  apply (mixture_words_survive_read_then_write 1 1 47 5000 Vundef Vundef
           [Some [5000]] [] meter_with_mixture_words mass_flow_meter_on_dead_bus);
    [reflexivity | reflexivity | exact Hs | exact Hs | exact Hg | exact Hn
    | reflexivity | reflexivity].
Defined.

Lemma nan_percent_passes_the_range_check_witness :
  deviceIsMassFlow (self mass_flow_controller_on_bank) = true
  /\ float_of_bits float_nan = S754_nan
  /\ percent_accepted float_nan = true
  /\ percent_word float_nan = Vundef
  /\ exists later,
       calls (snd (setMixtureGasProperties 1 47 float_nan mass_flow_controller_on_bank))
       = WriteCall 1 1049 [47] :: later.
Proof.
  assert (1 <= 1 <= 5) as Hi by lia.
  assert (0 <= 47 <= 210) as Hg by lia.
  split; [reflexivity |]. split; [reflexivity |].
  apply (nan_percent_passes_the_range_check 1 47 float_nan
           mass_flow_controller_on_bank);
    [reflexivity | exact Hi | exact Hg | reflexivity].
Defined.
